(** * glsl-template: render-resource lifecycle and per-frame update loop

    A shallow embedding of the TypeScript sources

      - [src/scripts/lib/webgl.ts]      (WebGLUtility, ShaderProgram)
      - [src/scripts/modules/Common.ts] (shared runtime state, clock)
      - [src/scripts/modules/Pointer.ts]
      - [src/scripts/modules/Output.ts]
      - [src/scripts/modules/WebGLApp.ts]

    together with the properties of the specification that are stated
    about them.

    Conventions of the embedding.

    - A JavaScript [number] is an exact rational ([Q]): arithmetic is the
      arithmetic of the source without IEEE-754 rounding, NaN or
      infinities.  Equalities between numbers are therefore stated with
      [==] ([Qeq]).
    - The WebGL context is an explicit state ([GL.state]).  Everything the
      platform decides (whether an allocation succeeds, whether a shader
      compiles, which methods the context object has) is read from the
      [GL.driver] the state carries, so that the theorems quantify over
      every platform behaviour.  Every call made on the context is
      appended to [GL.log].
    - A method that can [throw] is a computation in the monad [M]: it
      returns either a value or the exception together with the state
      reached at that point. *)

From Stdlib Require Import ZArith QArith Lqa Lia String List.
From stdpp Require Import gmap strings list.

(* ================================================================== *)
(** * JavaScript preliminaries *)
(* ================================================================== *)

Module Js.

(** A JavaScript [number]. *)
Abbreviation number := Q.

(** The two exception classes the sources can raise: [new Error(msg)],
    thrown explicitly, and the [TypeError] of the language itself
    (property access on [undefined], call of a non-function, failed
    WebIDL argument conversion). *)
Inductive exn : Type :=
| Error (message : string)
| TypeError (message : string).

(** [hay.includes(needle)] *)
Fixpoint includes (needle hay : string) : bool :=
  if String.prefix needle hay then true
  else match hay with
       | EmptyString => false
       | String _ rest => includes needle rest
       end.

(** Values passed to [setUniform]: [any[]] in the source; the callers
    pass numbers and [Float32Array]s. *)
Inductive value : Type :=
| Num (n : number)
| Float32 (elements : list number).

End Js.

(* ================================================================== *)
(** * The WebGL context *)
(* ================================================================== *)

Module GL.

(** Identity of a WebGL object (buffer, shader, program, framebuffer,
    renderbuffer, texture, uniform location). *)
Definition handle : Type := nat.

Inductive shader_type : Type := VERTEX_SHADER | FRAGMENT_SHADER.
Inductive buffer_target : Type := ARRAY_BUFFER | ELEMENT_ARRAY_BUFFER.
Inductive typed_array : Type := Float32Array | Int16Array | Uint32Array.

(** What the sources keep in a list of vertex buffers: a buffer
    object, or the empty array [[]] that stands in for a failed
    allocation. *)
Inductive buffer_value : Type :=
| Buffer (h : handle)
| EmptyArray.

(** A reference to the context whose state the monad [M] threads. *)
Inductive context : Type := Context.

(** Arguments of a method reached through [gl[type](...)]. *)
Inductive arg : Type :=
| ALocation (l : option handle)
| ABool (b : bool)
| AValue (v : Js.value).

(** One constructor per context method the sources call. *)
Inductive call : Type :=
| CreateShader (t : shader_type)
| ShaderSource (s : handle) (source : string)
| CompileShader (s : handle)
| GetShaderParameter (s : handle)
| GetShaderInfoLog (s : handle)
| CreateProgram
| AttachShader (p s : handle)
| TransformFeedbackVaryings (p : handle) (varyings : list string)
| LinkProgram (p : handle)
| GetProgramParameter (p : handle)
| GetProgramInfoLog (p : handle)
| UseProgram (p : handle)
| GetAttribLocation (p : handle) (name : string)
| GetUniformLocation (p : handle) (name : string)
| CreateBuffer
| BindBuffer (t : buffer_target) (b : option handle)
| BufferData (t : buffer_target) (a : typed_array) (data : list Js.number)
| EnableVertexAttribArray (location : Z)
| VertexAttribPointer (location : Z) (size : Js.number)
| CreateFramebuffer
| CreateRenderbuffer
| CreateTexture
| IsFramebuffer (o : option handle)
| IsRenderbuffer (o : option handle)
| IsTexture (o : option handle)
| BindFramebuffer (o : option handle)
| BindRenderbuffer (o : option handle)
| BindTexture (o : option handle)
| RenderbufferStorage (width height : Js.number)
| TexImage2D (width height : Js.number)
| TexParameteri
| FramebufferRenderbuffer (r : handle)
| FramebufferTexture2D (t : handle)
| DeleteFramebuffer (o : option handle)
| DeleteRenderbuffer (o : option handle)
| DeleteTexture (o : option handle)
| Viewport (width height : Js.number)
| ClearColor
| ClearDepth
| Enable
| Clear
| DrawArrays (count : Js.number)
| Invoke (method : string) (args : list arg).

(** What the page shows to its user outside the canvas. *)
Inductive notice : Type :=
| Alert (text : string)
| ConsoleWarn (text : string)
| ConsoleError (text : string).

(** Behaviour of the platform, fixed for the life of a context. *)
Record driver : Type := {
  (** does the [n]-th object creation request return an object? *)
  can_alloc : nat -> bool;
  (** does this source compile as a shader of this stage? *)
  compiles : shader_type -> string -> bool;
  (** do shaders with these sources link (with these captured outputs)? *)
  links : list string -> option (list string) -> bool;
  info_log : handle -> string;
  attrib_location : handle -> string -> Z;
  uniform_location : handle -> string -> option handle;
  (** is [gl[name]] a function? *)
  has_method : string -> bool;
  (** [gl instanceof WebGL2RenderingContext] *)
  is_webgl2 : bool
}.

Record shader_object : Type := {
  sh_type : shader_type;
  sh_source : string;
  sh_compiled : bool
}.

Record program_object : Type := {
  pr_attached : list handle;
  pr_varyings : option (list string);
  pr_linked : bool
}.

(** Size of the storage of a renderbuffer or texture, once allocated. *)
Definition storage : Type := option (Js.number * Js.number).

Record state : Type := {
  drv : driver;
  next_handle : nat;
  shaders : gmap handle shader_object;
  programs : gmap handle program_object;
  current_program : option handle;
  (** the objects for which [isFramebuffer] / [isRenderbuffer] /
      [isTexture] answer [true] *)
  framebuffers : gset handle;
  renderbuffers : gmap handle storage;
  textures : gmap handle storage;
  bound_framebuffer : option handle;
  bound_renderbuffer : option handle;
  bound_texture : option handle;
  log : list call;
  notices : list notice
}.

Definition set_next_handle (n : nat) (s : state) : state :=
  {| drv := drv s; next_handle := n; shaders := shaders s;
     programs := programs s; current_program := current_program s;
     framebuffers := framebuffers s; renderbuffers := renderbuffers s;
     textures := textures s; bound_framebuffer := bound_framebuffer s;
     bound_renderbuffer := bound_renderbuffer s;
     bound_texture := bound_texture s; log := log s;
     notices := notices s |}.

Definition set_shaders (m : gmap handle shader_object) (s : state) : state :=
  {| drv := drv s; next_handle := next_handle s; shaders := m;
     programs := programs s; current_program := current_program s;
     framebuffers := framebuffers s; renderbuffers := renderbuffers s;
     textures := textures s; bound_framebuffer := bound_framebuffer s;
     bound_renderbuffer := bound_renderbuffer s;
     bound_texture := bound_texture s; log := log s;
     notices := notices s |}.

Definition set_programs (m : gmap handle program_object) (s : state) : state :=
  {| drv := drv s; next_handle := next_handle s; shaders := shaders s;
     programs := m; current_program := current_program s;
     framebuffers := framebuffers s; renderbuffers := renderbuffers s;
     textures := textures s; bound_framebuffer := bound_framebuffer s;
     bound_renderbuffer := bound_renderbuffer s;
     bound_texture := bound_texture s; log := log s;
     notices := notices s |}.

Definition set_current_program (p : option handle) (s : state) : state :=
  {| drv := drv s; next_handle := next_handle s; shaders := shaders s;
     programs := programs s; current_program := p;
     framebuffers := framebuffers s; renderbuffers := renderbuffers s;
     textures := textures s; bound_framebuffer := bound_framebuffer s;
     bound_renderbuffer := bound_renderbuffer s;
     bound_texture := bound_texture s; log := log s;
     notices := notices s |}.

Definition set_framebuffers (f : gset handle) (s : state) : state :=
  {| drv := drv s; next_handle := next_handle s; shaders := shaders s;
     programs := programs s; current_program := current_program s;
     framebuffers := f; renderbuffers := renderbuffers s;
     textures := textures s; bound_framebuffer := bound_framebuffer s;
     bound_renderbuffer := bound_renderbuffer s;
     bound_texture := bound_texture s; log := log s;
     notices := notices s |}.

Definition set_renderbuffers (m : gmap handle storage) (s : state) : state :=
  {| drv := drv s; next_handle := next_handle s; shaders := shaders s;
     programs := programs s; current_program := current_program s;
     framebuffers := framebuffers s; renderbuffers := m;
     textures := textures s; bound_framebuffer := bound_framebuffer s;
     bound_renderbuffer := bound_renderbuffer s;
     bound_texture := bound_texture s; log := log s;
     notices := notices s |}.

Definition set_textures (m : gmap handle storage) (s : state) : state :=
  {| drv := drv s; next_handle := next_handle s; shaders := shaders s;
     programs := programs s; current_program := current_program s;
     framebuffers := framebuffers s; renderbuffers := renderbuffers s;
     textures := m; bound_framebuffer := bound_framebuffer s;
     bound_renderbuffer := bound_renderbuffer s;
     bound_texture := bound_texture s; log := log s;
     notices := notices s |}.

Definition set_bound_framebuffer (o : option handle) (s : state) : state :=
  {| drv := drv s; next_handle := next_handle s; shaders := shaders s;
     programs := programs s; current_program := current_program s;
     framebuffers := framebuffers s; renderbuffers := renderbuffers s;
     textures := textures s; bound_framebuffer := o;
     bound_renderbuffer := bound_renderbuffer s;
     bound_texture := bound_texture s; log := log s;
     notices := notices s |}.

Definition set_bound_renderbuffer (o : option handle) (s : state) : state :=
  {| drv := drv s; next_handle := next_handle s; shaders := shaders s;
     programs := programs s; current_program := current_program s;
     framebuffers := framebuffers s; renderbuffers := renderbuffers s;
     textures := textures s; bound_framebuffer := bound_framebuffer s;
     bound_renderbuffer := o;
     bound_texture := bound_texture s; log := log s;
     notices := notices s |}.

Definition set_bound_texture (o : option handle) (s : state) : state :=
  {| drv := drv s; next_handle := next_handle s; shaders := shaders s;
     programs := programs s; current_program := current_program s;
     framebuffers := framebuffers s; renderbuffers := renderbuffers s;
     textures := textures s; bound_framebuffer := bound_framebuffer s;
     bound_renderbuffer := bound_renderbuffer s;
     bound_texture := o; log := log s;
     notices := notices s |}.

(** Append one call to the trace. *)
Definition record (c : call) (s : state) : state :=
  {| drv := drv s; next_handle := next_handle s; shaders := shaders s;
     programs := programs s; current_program := current_program s;
     framebuffers := framebuffers s; renderbuffers := renderbuffers s;
     textures := textures s; bound_framebuffer := bound_framebuffer s;
     bound_renderbuffer := bound_renderbuffer s;
     bound_texture := bound_texture s; log := log s ++ [c];
     notices := notices s |}.

Definition notify (n : notice) (s : state) : state :=
  {| drv := drv s; next_handle := next_handle s; shaders := shaders s;
     programs := programs s; current_program := current_program s;
     framebuffers := framebuffers s; renderbuffers := renderbuffers s;
     textures := textures s; bound_framebuffer := bound_framebuffer s;
     bound_renderbuffer := bound_renderbuffer s;
     bound_texture := bound_texture s; log := log s;
     notices := notices s ++ [n] |}.

End GL.

(* ================================================================== *)
(** * Computations that may throw *)
(* ================================================================== *)

Inductive outcome (A : Type) : Type :=
| Returns (a : A)
| Throws (e : Js.exn).
Arguments Returns {A} a.
Arguments Throws {A} e.

(** A method body: from the context state to its outcome and the state
    it leaves.  The state is kept when the body throws: calls already
    made on the context are not undone. *)
Definition M (A : Type) : Type := GL.state -> outcome A * GL.state.

Definition ret {A} (a : A) : M A := fun s => (Returns a, s).

Definition throw {A} (e : Js.exn) : M A := fun s => (Throws e, s).

Definition bind {A B} (m : M A) (k : A -> M B) : M B :=
  fun s => match m s with
           | (Returns a, s') => k a s'
           | (Throws e, s') => (Throws e, s')
           end.

(** [try { m } catch (error) { h error }] *)
Definition try_catch {A} (m : M A) (h : Js.exn -> M A) : M A :=
  fun s => match m s with
           | (Returns a, s') => (Returns a, s')
           | (Throws e, s') => h e s'
           end.

Notation "'let*' x ':=' m 'in' k" := (bind m (fun x => k))
  (at level 10, x name, m at level 100, k at level 200).
Notation "m ';;;' k" := (bind m (fun _ => k))
  (at level 100, k at level 200, right associativity).

(** A state change that cannot fail. *)
Definition modify (f : GL.state -> GL.state) : M unit :=
  fun s => (Returns tt, f s).

Definition gets {A} (f : GL.state -> A) : M A :=
  fun s => (Returns (f s), s).

(** [xs.forEach(f)] *)
Fixpoint for_each {A} (f : A -> nat -> M unit) (xs : list A) (index : nat) : M unit :=
  match xs with
  | [] => ret tt
  | x :: rest => f x index ;;; for_each f rest (S index)
  end.

(** [xs.map(f)] *)
Fixpoint map_each {A B} (f : A -> M B) (xs : list A) : M (list B) :=
  match xs with
  | [] => ret []
  | x :: rest => let* y := f x in let* ys := map_each f rest in ret (y :: ys)
  end.

(* ================================================================== *)
(** * Methods of the context object *)
(* ================================================================== *)

Module gl.
Import GL.

(** Common part of every [create*] method: the request is recorded,
    consumes one object name, and yields the new object or [null]. *)
Definition alloc (c : call) : M (option handle) := fun s =>
  let h := next_handle s in
  let s' := set_next_handle (S h) (record c s) in
  if can_alloc (drv s) h then (Returns (Some h), s') else (Returns None, s').

Definition createBuffer : M (option handle) := alloc CreateBuffer.

Definition bindBuffer (t : buffer_target) (b : option handle) : M unit :=
  modify (record (BindBuffer t b)).

(** [gl.bindBuffer(target, v)] for a value [v] that need not be a
    buffer: the argument conversion rejects anything that is neither a
    [WebGLBuffer] nor [null] with a [TypeError], before the call. *)
Definition bindBuffer_value (t : buffer_target) (v : buffer_value) : M unit :=
  match v with
  | Buffer h => bindBuffer t (Some h)
  | EmptyArray =>
      throw (Js.TypeError "parameter 2 is not of type 'WebGLBuffer'")
  end.

Definition bufferData (t : buffer_target) (a : typed_array)
    (data : list Js.number) : M unit :=
  modify (record (BufferData t a data)).

Definition createShader (t : shader_type) : M (option handle) :=
  let* o := alloc (CreateShader t) in
  match o with
  | Some h =>
      modify (fun s => set_shaders
        (<[h := {| sh_type := t; sh_source := ""; sh_compiled := false |}]>
           (shaders s)) s) ;;;
      ret o
  | None => ret o
  end.

Definition shaderSource (h : handle) (source : string) : M unit :=
  modify (fun s => record (ShaderSource h source) (set_shaders
    (alter (fun o => {| sh_type := sh_type o; sh_source := source;
                        sh_compiled := sh_compiled o |}) h (shaders s)) s)).

Definition compileShader (h : handle) : M unit :=
  modify (fun s => record (CompileShader h) (set_shaders
    (alter (fun o => {| sh_type := sh_type o; sh_source := sh_source o;
                        sh_compiled :=
                          compiles (drv s) (sh_type o) (sh_source o) |})
           h (shaders s)) s)).

(** [gl.getShaderParameter(shader, gl.COMPILE_STATUS)] *)
Definition getShaderParameter (h : handle) : M bool := fun s =>
  (Returns (match shaders s !! h with
            | Some o => sh_compiled o
            | None => false
            end),
   record (GetShaderParameter h) s).

Definition getShaderInfoLog (h : handle) : M string := fun s =>
  (Returns (info_log (drv s) h), record (GetShaderInfoLog h) s).

Definition createProgram : M (option handle) :=
  let* o := alloc CreateProgram in
  match o with
  | Some h =>
      modify (fun s => set_programs
        (<[h := {| pr_attached := []; pr_varyings := None;
                   pr_linked := false |}]> (programs s)) s) ;;;
      ret o
  | None => ret o
  end.

Definition attachShader (p sh : handle) : M unit :=
  modify (fun s => record (AttachShader p sh) (set_programs
    (alter (fun o => {| pr_attached := pr_attached o ++ [sh];
                        pr_varyings := pr_varyings o;
                        pr_linked := pr_linked o |}) p (programs s)) s)).

Definition transformFeedbackVaryings (p : handle) (vs : list string) : M unit :=
  modify (fun s => record (TransformFeedbackVaryings p vs) (set_programs
    (alter (fun o => {| pr_attached := pr_attached o;
                        pr_varyings := Some vs;
                        pr_linked := pr_linked o |}) p (programs s)) s)).

(** A program links when each attached shader is compiled and the
    platform accepts the combination of their sources. *)
Definition link_status (s : state) (o : program_object) : bool :=
  forallb (fun sh => match shaders s !! sh with
                     | Some so => sh_compiled so
                     | None => false
                     end) (pr_attached o)
  && links (drv s)
       (omap (fun sh => sh_source <$> shaders s !! sh) (pr_attached o))
       (pr_varyings o).

Definition linkProgram (p : handle) : M unit :=
  modify (fun s => record (LinkProgram p) (set_programs
    (alter (fun o => {| pr_attached := pr_attached o;
                        pr_varyings := pr_varyings o;
                        pr_linked := link_status s o |}) p (programs s)) s)).

(** [gl.getProgramParameter(program, gl.LINK_STATUS)] *)
Definition getProgramParameter (p : handle) : M bool := fun s =>
  (Returns (match programs s !! p with
            | Some o => pr_linked o
            | None => false
            end),
   record (GetProgramParameter p) s).

Definition getProgramInfoLog (p : handle) : M string := fun s =>
  (Returns (info_log (drv s) p), record (GetProgramInfoLog p) s).

Definition useProgram (p : handle) : M unit :=
  modify (fun s => record (UseProgram p) (set_current_program (Some p) s)).

Definition getAttribLocation (p : handle) (name : string) : M Z := fun s =>
  (Returns (attrib_location (drv s) p name), record (GetAttribLocation p name) s).

Definition getUniformLocation (p : handle) (name : string)
    : M (option handle) := fun s =>
  (Returns (uniform_location (drv s) p name),
   record (GetUniformLocation p name) s).

Definition enableVertexAttribArray (location : Z) : M unit :=
  modify (record (EnableVertexAttribArray location)).

Definition vertexAttribPointer (location : Z) (size : Js.number) : M unit :=
  modify (record (VertexAttribPointer location size)).

(** Framebuffers, renderbuffers and textures.  An object answers
    [true] to its [is*] query from its creation to its deletion (the
    sources bind every object right after creating it). *)
Definition createFramebuffer : M (option handle) :=
  let* o := alloc CreateFramebuffer in
  match o with
  | Some h =>
      modify (fun s => set_framebuffers ({[h]} ∪ framebuffers s) s) ;;; ret o
  | None => ret o
  end.

Definition createRenderbuffer : M (option handle) :=
  let* o := alloc CreateRenderbuffer in
  match o with
  | Some h =>
      modify (fun s => set_renderbuffers (<[h := None]> (renderbuffers s)) s) ;;;
      ret o
  | None => ret o
  end.

Definition createTexture : M (option handle) :=
  let* o := alloc CreateTexture in
  match o with
  | Some h =>
      modify (fun s => set_textures (<[h := None]> (textures s)) s) ;;; ret o
  | None => ret o
  end.

Definition valid_framebuffer (s : state) (o : option handle) : bool :=
  match o with
  | Some h => bool_decide (h ∈ framebuffers s)
  | None => false
  end.

Definition valid_renderbuffer (s : state) (o : option handle) : bool :=
  match o with
  | Some h => bool_decide (is_Some (renderbuffers s !! h))
  | None => false
  end.

Definition valid_texture (s : state) (o : option handle) : bool :=
  match o with
  | Some h => bool_decide (is_Some (textures s !! h))
  | None => false
  end.

Definition isFramebuffer (o : option handle) : M bool := fun s =>
  (Returns (valid_framebuffer s o), record (IsFramebuffer o) s).

Definition isRenderbuffer (o : option handle) : M bool := fun s =>
  (Returns (valid_renderbuffer s o), record (IsRenderbuffer o) s).

Definition isTexture (o : option handle) : M bool := fun s =>
  (Returns (valid_texture s o), record (IsTexture o) s).

(** Binding [null] unbinds; binding a valid object binds it; binding
    anything else is a GL error that leaves the binding as it was. *)
Definition bindFramebuffer (o : option handle) : M unit :=
  modify (fun s => record (BindFramebuffer o)
    (match o with
     | None => set_bound_framebuffer None s
     | Some _ => if valid_framebuffer s o then set_bound_framebuffer o s else s
     end)).

Definition bindRenderbuffer (o : option handle) : M unit :=
  modify (fun s => record (BindRenderbuffer o)
    (match o with
     | None => set_bound_renderbuffer None s
     | Some _ => if valid_renderbuffer s o then set_bound_renderbuffer o s else s
     end)).

Definition bindTexture (o : option handle) : M unit :=
  modify (fun s => record (BindTexture o)
    (match o with
     | None => set_bound_texture None s
     | Some _ => if valid_texture s o then set_bound_texture o s else s
     end)).

(** [gl.renderbufferStorage(gl.RENDERBUFFER, gl.DEPTH_COMPONENT16, w, h)]:
    allocates the storage of the renderbuffer that is bound; a GL
    error without effect when none is. *)
Definition renderbufferStorage (width height : Js.number) : M unit :=
  modify (fun s => record (RenderbufferStorage width height)
    (match bound_renderbuffer s with
     | Some r => set_renderbuffers
                   (<[r := Some (width, height)]> (renderbuffers s)) s
     | None => s
     end)).

(** [gl.texImage2D(gl.TEXTURE_2D, 0, format, w, h, 0, gl.RGBA, type, null)] *)
Definition texImage2D (width height : Js.number) : M unit :=
  modify (fun s => record (TexImage2D width height)
    (match bound_texture s with
     | Some t => set_textures (<[t := Some (width, height)]> (textures s)) s
     | None => s
     end)).

Definition texParameteri : M unit := modify (record TexParameteri).

Definition framebufferRenderbuffer (r : handle) : M unit :=
  modify (record (FramebufferRenderbuffer r)).

Definition framebufferTexture2D (t : handle) : M unit :=
  modify (record (FramebufferTexture2D t)).

(** Deleting an object that is bound also unbinds it; deleting
    [null] does nothing. *)
Definition unbind_if (h : handle) (o : option handle) : option handle :=
  match o with
  | Some h' => if decide (h' = h) then None else o
  | None => None
  end.

Definition deleteFramebuffer (o : option handle) : M unit :=
  modify (fun s => record (DeleteFramebuffer o)
    (match o with
     | Some h =>
         set_bound_framebuffer (unbind_if h (bound_framebuffer s))
           (set_framebuffers (framebuffers s ∖ {[h]}) s)
     | None => s
     end)).

Definition deleteRenderbuffer (o : option handle) : M unit :=
  modify (fun s => record (DeleteRenderbuffer o)
    (match o with
     | Some h =>
         set_bound_renderbuffer (unbind_if h (bound_renderbuffer s))
           (set_renderbuffers (delete h (renderbuffers s)) s)
     | None => s
     end)).

Definition deleteTexture (o : option handle) : M unit :=
  modify (fun s => record (DeleteTexture o)
    (match o with
     | Some h =>
         set_bound_texture (unbind_if h (bound_texture s))
           (set_textures (delete h (textures s)) s)
     | None => s
     end)).

Definition viewport (width height : Js.number) : M unit :=
  modify (record (Viewport width height)).

Definition clearColor : M unit := modify (record ClearColor).
Definition clearDepth : M unit := modify (record ClearDepth).
Definition enable : M unit := modify (record Enable).
Definition clear : M unit := modify (record Clear).

Definition drawArrays (count : Js.number) : M unit :=
  modify (record (DrawArrays count)).

(** [(gl as any)[name](...args)]: a [TypeError] when the context has
    no such method, the call otherwise. *)
Definition invoke (name : string) (args : list arg) : M unit := fun s =>
  if has_method (drv s) name
  then (Returns tt, record (Invoke name args) s)
  else (Throws (Js.TypeError "gl[type] is not a function"), s).

Definition alert (text : string) : M unit := modify (notify (Alert text)).
Definition console_warn (text : string) : M unit :=
  modify (notify (ConsoleWarn text)).
Definition console_error (text : string) : M unit :=
  modify (notify (ConsoleError text)).

End gl.

(* ================================================================== *)
(** * lib/webgl.ts: [WebGLUtility] *)
(* ================================================================== *)

Module WebGLUtility.
Import GL.

Record OES_texture_half_float : Type := { HALF_FLOAT_OES : Z }.

(** [interface WebGLExtensions]: each extension object or [null]. *)
Record WebGLExtensions : Type := {
  elementIndexUint : option unit;
  textureFloat : option unit;
  textureHalfFloat : option OES_texture_half_float
}.

(** A property of the object handed to [resizeFramebuffer] and
    [deleteFramebuffer]: not an own property, [null], or an object. *)
Inductive slot : Type :=
| Absent
| Null
| Object (h : handle).

(** [obj.hasOwnProperty(name) === true] *)
Definition hasOwnProperty (f : slot) : bool :=
  match f with
  | Absent => false
  | Null | Object _ => true
  end.

(** The value the property access [obj.name] passes to the context:
    [undefined] and [null] are both the null object there. *)
Definition slot_value (f : slot) : option handle :=
  match f with
  | Object h => Some h
  | Absent | Null => None
  end.

(** The object [createFramebuffer] returns. *)
Record bundle : Type := {
  framebuffer : slot;
  renderbuffer : slot;
  texture : slot
}.

(** [a && m], where [m] is evaluated only when [a] holds *)
Definition and_then (a : bool) (m : M bool) : M bool :=
  if a then m else ret false.

Definition createShader (source : string) (type : shader_type)
    : M (option handle) :=
  let* shader := gl.createShader type in
  match shader with
  | None => ret None
  | Some sh =>
      gl.shaderSource sh source ;;;
      gl.compileShader sh ;;;
      let* status := gl.getShaderParameter sh in
      if status then ret (Some sh)
      else
        let* text := gl.getShaderInfoLog sh in
        gl.alert text ;;;
        ret None
  end.

Definition createProgram (vs fs : handle) : M (option handle) :=
  let* program := gl.createProgram in
  match program with
  | None => ret None
  | Some p =>
      gl.attachShader p vs ;;;
      gl.attachShader p fs ;;;
      gl.linkProgram p ;;;
      let* status := gl.getProgramParameter p in
      if status then gl.useProgram p ;;; ret (Some p)
      else
        let* text := gl.getProgramInfoLog p in
        gl.alert text ;;;
        ret None
  end.

Definition createTransformFeedbackProgram (vs fs : handle)
    (varyings : list string) : M (option handle) :=
  let* program := gl.createProgram in
  match program with
  | None => ret None
  | Some p =>
      gl.attachShader p vs ;;;
      gl.attachShader p fs ;;;
      gl.transformFeedbackVaryings p varyings ;;;
      gl.linkProgram p ;;;
      let* status := gl.getProgramParameter p in
      if status then gl.useProgram p ;;; ret (Some p)
      else
        let* text := gl.getProgramInfoLog p in
        gl.alert text ;;;
        ret None
  end.

Definition createVbo (data : list Js.number) : M (option handle) :=
  let* vbo := gl.createBuffer in
  match vbo with
  | None => ret None
  | Some b =>
      gl.bindBuffer ARRAY_BUFFER (Some b) ;;;
      gl.bufferData ARRAY_BUFFER Float32Array data ;;;
      gl.bindBuffer ARRAY_BUFFER None ;;;
      ret (Some b)
  end.

Definition createIbo (data : list Js.number) : M (option handle) :=
  let* ibo := gl.createBuffer in
  match ibo with
  | None => ret None
  | Some b =>
      gl.bindBuffer ELEMENT_ARRAY_BUFFER (Some b) ;;;
      gl.bufferData ELEMENT_ARRAY_BUFFER Int16Array data ;;;
      gl.bindBuffer ELEMENT_ARRAY_BUFFER None ;;;
      ret (Some b)
  end.

(** [ext == null || ext.elementIndexUint == null] *)
Definition lacks_elementIndexUint (ext : option WebGLExtensions) : bool :=
  match ext with
  | None => true
  | Some e => match elementIndexUint e with
              | None => true
              | Some _ => false
              end
  end.

(** The result type has no [null]: the function returns a buffer or
    throws. *)
Definition createIboInt (ext : option WebGLExtensions)
    (data : list Js.number) : M handle :=
  if lacks_elementIndexUint ext
  then throw (Js.Error "element index Uint not supported")
  else
    let* ibo := gl.createBuffer in
    match ibo with
    | None => throw (Js.Error "Failed to create buffer")
    | Some b =>
        gl.bindBuffer ELEMENT_ARRAY_BUFFER (Some b) ;;;
        gl.bufferData ELEMENT_ARRAY_BUFFER Uint32Array data ;;;
        gl.bindBuffer ELEMENT_ARRAY_BUFFER None ;;;
        ret b
    end.

Definition createFramebuffer (width height : Js.number) : M bundle :=
  let* frameBuffer := gl.createFramebuffer in
  let* depthRenderBuffer := gl.createRenderbuffer in
  let* fTexture := gl.createTexture in
  match frameBuffer, depthRenderBuffer, fTexture with
  | Some fb, Some rb, Some tx =>
      gl.bindFramebuffer (Some fb) ;;;
      gl.bindRenderbuffer (Some rb) ;;;
      gl.renderbufferStorage width height ;;;
      gl.framebufferRenderbuffer rb ;;;
      gl.bindTexture (Some tx) ;;;
      gl.texImage2D width height ;;;
      gl.texParameteri ;;;
      gl.texParameteri ;;;
      gl.texParameteri ;;;
      gl.texParameteri ;;;
      gl.framebufferTexture2D tx ;;;
      gl.bindTexture None ;;;
      gl.bindRenderbuffer None ;;;
      gl.bindFramebuffer None ;;;
      ret {| framebuffer := Object fb; renderbuffer := Object rb;
             texture := Object tx |}
  | _, _, _ =>
      ret {| framebuffer := Null; renderbuffer := Null; texture := Null |}
  end.

(** [(this as any).buffers.<field>]: [this] is the receiver of the
    static call.  [buffers] is the value of its property of that name,
    [None] when it has none (the class declares no such property); the
    property access on [undefined] is a [TypeError]. *)
Definition this_buffers_field (buffers : option bundle)
    (field : bundle -> slot) : M (option handle) :=
  match buffers with
  | None =>
      throw (Js.TypeError "Cannot read properties of undefined")
  | Some b => ret (slot_value (field b))
  end.

Definition resizeFramebuffer (buffers : option bundle)
    (obj : option bundle) (width height : Js.number) : M unit :=
  match obj with
  | None => ret tt
  | Some o =>
      let* has_renderbuffer :=
        and_then (hasOwnProperty (renderbuffer o))
                 (gl.isRenderbuffer (slot_value (renderbuffer o))) in
      (if has_renderbuffer then
         let* target := this_buffers_field buffers renderbuffer in
         gl.bindRenderbuffer target ;;;
         gl.renderbufferStorage width height
       else ret tt) ;;;
      let* has_texture :=
        and_then (hasOwnProperty (texture o))
                 (gl.isTexture (slot_value (texture o))) in
      if has_texture then
        let* target := this_buffers_field buffers texture in
        gl.bindTexture target ;;;
        gl.texImage2D width height
      else ret tt
  end.

Definition set_framebuffer (f : slot) (o : bundle) : bundle :=
  {| framebuffer := f; renderbuffer := renderbuffer o; texture := texture o |}.
Definition set_renderbuffer (f : slot) (o : bundle) : bundle :=
  {| framebuffer := framebuffer o; renderbuffer := f; texture := texture o |}.
Definition set_texture (f : slot) (o : bundle) : bundle :=
  {| framebuffer := framebuffer o; renderbuffer := renderbuffer o; texture := f |}.

(** The object is mutated in place: the result is the object as the
    caller finds it afterwards.  The final [obj = null] of the source
    only rebinds the parameter. *)
Definition deleteFramebuffer (obj : option bundle) : M (option bundle) :=
  match obj with
  | None => ret None
  | Some o =>
      let* has_framebuffer :=
        and_then (hasOwnProperty (framebuffer o))
                 (gl.isFramebuffer (slot_value (framebuffer o))) in
      let* o1 :=
        (if has_framebuffer then
           gl.bindFramebuffer None ;;;
           gl.deleteFramebuffer (slot_value (framebuffer o)) ;;;
           ret (set_framebuffer Null o)
         else ret o) in
      let* has_renderbuffer :=
        and_then (hasOwnProperty (renderbuffer o1))
                 (gl.isRenderbuffer (slot_value (renderbuffer o1))) in
      let* o2 :=
        (if has_renderbuffer then
           gl.bindRenderbuffer None ;;;
           gl.deleteRenderbuffer (slot_value (renderbuffer o1)) ;;;
           ret (set_renderbuffer Null o1)
         else ret o1) in
      let* has_texture :=
        and_then (hasOwnProperty (texture o2))
                 (gl.isTexture (slot_value (texture o2))) in
      let* o3 :=
        (if has_texture then
           gl.bindTexture None ;;;
           gl.deleteTexture (slot_value (texture o2)) ;;;
           ret (set_texture Null o2)
         else ret o2) in
      ret (Some o3)
  end.

(** [gl.FLOAT] *)
Definition FLOAT : Z := 5126.

(** The texel type [createFramebufferFloat] settles on.  [isMobile] and
    [isIpad] are the answers of [Device.isMobile()] and
    [Device.isIpad()]. *)
Definition float_texel_type (isMobile isIpad : bool) (ext : WebGLExtensions)
    : M Z :=
  if isMobile || isIpad then
    match textureHalfFloat ext with
    | Some half => ret (HALF_FLOAT_OES half)
    | None => throw (Js.Error "textureHalfFloat is not supported")
    end
  else
    match textureFloat ext with
    | Some _ => ret FLOAT
    | None =>
        match textureHalfFloat ext with
        | Some half => ret (HALF_FLOAT_OES half)
        | None => throw (Js.Error "No valid float texture format supported")
        end
    end.

(** [ext == null || (ext.textureFloat == null && ext.textureHalfFloat == null)] *)
Definition lacks_float_texture (ext : option WebGLExtensions) : bool :=
  match ext with
  | None => true
  | Some e =>
      match textureFloat e, textureHalfFloat e with
      | None, None => true
      | _, _ => false
      end
  end.

(** The object returned has no [renderbuffer] property.  The texel
    type chosen is an argument of [texImage2D] that the trace does not
    keep. *)
Definition createFramebufferFloat (isMobile isIpad : bool)
    (ext : option WebGLExtensions) (width height : Js.number) : M bundle :=
  match ext with
  | None => throw (Js.Error "float texture not supported")
  | Some e =>
      if lacks_float_texture ext
      then throw (Js.Error "float texture not supported")
      else
        let* flg := float_texel_type isMobile isIpad e in
        let* frameBuffer := gl.createFramebuffer in
        let* fTexture := gl.createTexture in
        match frameBuffer, fTexture with
        | Some fb, Some tx =>
            gl.bindFramebuffer (Some fb) ;;;
            gl.bindTexture (Some tx) ;;;
            gl.texImage2D width height ;;;
            gl.texParameteri ;;;
            gl.texParameteri ;;;
            gl.texParameteri ;;;
            gl.texParameteri ;;;
            gl.framebufferTexture2D tx ;;;
            gl.bindTexture None ;;;
            gl.bindFramebuffer None ;;;
            ret {| framebuffer := Object fb; renderbuffer := Absent;
                   texture := Object tx |}
        | _, _ =>
            ret {| framebuffer := Null; renderbuffer := Absent;
                   texture := Null |}
        end
  end.


End WebGLUtility.

(* ================================================================== *)
(** * lib/webgl.ts: [ShaderProgram] *)
(* ================================================================== *)

Module ShaderProgramOptions.

(** [interface ShaderProgramOptions]; an optional property that is
    left out is [None]. *)
Record t : Type := {
  vertexShaderSource : string;
  fragmentShaderSource : string;
  attribute : list string;
  stride : list Js.number;
  uniform : option (list string);
  type : option (list string);
  transformFeedbackVaryings : option (list string)
}.

End ShaderProgramOptions.

Module ShaderProgram.
Import GL.

Record t : Type := {
  vertexShaderSource : string;
  fragmentShaderSource : string;
  attribute : list string;
  stride : list Js.number;
  uniform : option (list string);
  type : option (list string);
  transformFeedbackVaryings : option (list string);
  vertexShader : handle;
  fragmentShader : handle;
  program : handle;
  attributeLocation : list Z;
  uniformLocation : option (list (option handle))
}.

Definition dquote : string := String (Ascii.ascii_of_nat 34) EmptyString.

(** [`"${name}" is an invalid ... variable`] *)
Definition invalid_variable (name what : string) : string :=
  String.append dquote (String.append name (String.append dquote what)).

(** The two descriptor checks at the head of the constructor.  The
    result is the pair ([this.uniform], [this.type]) as the checks
    leave it. *)
Definition validate (options : ShaderProgramOptions.t)
    : M (option (list string) * option (list string)) :=
  if negb (length (ShaderProgramOptions.attribute options)
           =? length (ShaderProgramOptions.stride options))%nat
  then throw (Js.Error "attribute or stride does not match")
  else
    match ShaderProgramOptions.uniform options,
          ShaderProgramOptions.type options with
    | None, None => ret (None, None)
    | Some u, Some t =>
        if negb (length u =? length t)%nat
        then throw (Js.Error "uniform or type does not match")
        else ret (Some u, Some t)
    | Some _, None | None, Some _ =>
        throw (Js.Error "uniform or type does not match")
    end.

(** [Array.isArray(v) === true && v.length > 0] *)
Definition non_empty_array (v : option (list string)) : bool :=
  match v with
  | Some (_ :: _) => true
  | Some [] | None => false
  end.

Definition resolve_attribute (p : handle) (attributeName : string) : M Z :=
  let* location := gl.getAttribLocation p attributeName in
  (if (location <? 0)%Z
   then gl.console_warn
          (invalid_variable attributeName " is an invalid attribute variable")
   else ret tt) ;;;
  ret location.

Definition resolve_uniform (p : handle) (uniformName : string)
    : M (option handle) :=
  let* location := gl.getUniformLocation p uniformName in
  (match location with
   | None => gl.console_warn
               (invalid_variable uniformName " is an invalid uniform variable")
   | Some _ => ret tt
   end) ;;;
  ret location.

(** Everything the constructor does after the descriptor checks. *)
Definition build (options : ShaderProgramOptions.t)
    (uniform type : option (list string)) : M t :=
  let* vertexShader :=
    WebGLUtility.createShader
      (ShaderProgramOptions.vertexShaderSource options) VERTEX_SHADER in
  let* fragmentShader :=
    WebGLUtility.createShader
      (ShaderProgramOptions.fragmentShaderSource options) FRAGMENT_SHADER in
  match vertexShader, fragmentShader with
  | Some vs, Some fs =>
      let* webgl2 := gets (fun s => is_webgl2 (drv s)) in
      let* program :=
        (if webgl2 && non_empty_array
                        (ShaderProgramOptions.transformFeedbackVaryings options)
         then WebGLUtility.createTransformFeedbackProgram vs fs
                (default [] (ShaderProgramOptions.transformFeedbackVaryings options))
         else WebGLUtility.createProgram vs fs) in
      match program with
      | None => throw (Js.Error "shader program creation failed")
      | Some p =>
          let* attributeLocation :=
            map_each (resolve_attribute p)
                     (ShaderProgramOptions.attribute options) in
          let* uniformLocation :=
            (match uniform with
             | Some u => let* l := map_each (resolve_uniform p) u in
                         ret (Some l)
             | None => ret None
             end) in
          ret {| vertexShaderSource :=
                   ShaderProgramOptions.vertexShaderSource options;
                 fragmentShaderSource :=
                   ShaderProgramOptions.fragmentShaderSource options;
                 attribute := ShaderProgramOptions.attribute options;
                 stride := ShaderProgramOptions.stride options;
                 uniform := uniform;
                 type := type;
                 transformFeedbackVaryings :=
                   ShaderProgramOptions.transformFeedbackVaryings options;
                 vertexShader := vs;
                 fragmentShader := fs;
                 program := p;
                 attributeLocation := attributeLocation;
                 uniformLocation := uniformLocation |}
      end
  | _, _ => throw (Js.Error "shader compilation failed")
  end.

(** [new ShaderProgram(gl, options)] *)
Definition constructor (options : ShaderProgramOptions.t) : M t :=
  let* checked := validate options in
  build options (fst checked) (snd checked).

Definition use (this : t) : M unit := gl.useProgram (program this).

(** An index past the end of an array reads [undefined], which the
    context receives as location or size [0]. *)
Definition setAttribute (this : t) (vbo : list buffer_value)
    (ibo : option handle) : M unit :=
  if negb (length vbo =? length (attribute this))%nat
  then throw (Js.Error "vbo or attribute does not match")
  else
    for_each (fun v index =>
        gl.bindBuffer_value ARRAY_BUFFER v ;;;
        gl.enableVertexAttribArray
          (default 0%Z (attributeLocation this !! index)) ;;;
        gl.vertexAttribPointer
          (default 0%Z (attributeLocation this !! index))
          (default 0%Q (stride this !! index)))
      vbo 0%nat ;;;
    match ibo with
    | Some _ => gl.bindBuffer ELEMENT_ARRAY_BUFFER ibo
    | None => ret tt
    end.

(** [this.type![index]] followed by [type.includes]: a [TypeError]
    when [this.type] is [null] or has no such element. *)
Definition type_at (this : t) (index : nat) : M string :=
  match type this with
  | None => throw (Js.TypeError "Cannot read properties of null")
  | Some ts =>
      match ts !! index with
      | None => throw (Js.TypeError "Cannot read properties of undefined")
      | Some tag => ret tag
      end
  end.

(** [this.uniformLocation![index]] *)
Definition location_at (this : t) (index : nat) : M (option handle) :=
  match uniformLocation this with
  | None => throw (Js.TypeError "Cannot read properties of undefined")
  | Some ls => ret (mjoin (ls !! index))
  end.

(** One iteration of the [forEach] of [setUniform]. *)
Definition dispatch (this : t) (v : Js.value) (index : nat) : M unit :=
  let* tag := type_at this index in
  let* location := location_at this index in
  if Js.includes "Matrix" tag
  then gl.invoke tag [ALocation location; ABool false; AValue v]
  else gl.invoke tag [ALocation location; AValue v].

Definition setUniform (this : t) (value : list Js.value) : M unit :=
  match uniform this with
  | None => ret tt
  | Some u =>
      if negb (length value =? length u)%nat
      then throw (Js.Error "value is an invalid")
      else for_each (dispatch this) value 0%nat
  end.

End ShaderProgram.

(* ================================================================== *)
(** * modules/Common.ts: shared runtime state *)
(* ================================================================== *)

Module Common.
Local Open Scope Q_scope.

(** The part of the canvas element the sources read and write. *)
Record HTMLCanvasElement : Type := {
  width : Js.number;
  height : Js.number
}.

Record t : Type := {
  canvas : option HTMLCanvasElement;
  gl : option GL.context;
  running : bool;
  previousTime : Js.number;
  currentTime : Js.number;
  time : Js.number;
  timeScale : Js.number;
  devicePixelRatio : Js.number
}.

(** [window.devicePixelRatio] is read from the environment. *)
Definition constructor (window_devicePixelRatio : Js.number) : t :=
  {| canvas := None; gl := None; running := false;
     previousTime := 0; currentTime := 0; time := 0; timeScale := 1;
     devicePixelRatio := window_devicePixelRatio |}.

Definition set_running (b : bool) (this : t) : t :=
  {| canvas := canvas this; gl := gl this; running := b;
     previousTime := previousTime this; currentTime := currentTime this;
     time := time this; timeScale := timeScale this;
     devicePixelRatio := devicePixelRatio this |}.

Definition set_timeScale (v : Js.number) (this : t) : t :=
  {| canvas := canvas this; gl := gl this; running := running this;
     previousTime := previousTime this; currentTime := currentTime this;
     time := time this; timeScale := v;
     devicePixelRatio := devicePixelRatio this |}.

(** [now] is the value of [Date.now()] read by the call. *)
Definition setup (now : Js.number) (this : t) : M t :=
  match gl this with
  | None => ret this
  | Some _ =>
      gl.clearColor ;;;
      gl.clearDepth ;;;
      gl.enable ;;;
      ret {| canvas := canvas this; gl := gl this; running := running this;
             previousTime := now; currentTime := currentTime this;
             time := time this; timeScale := timeScale this;
             devicePixelRatio := devicePixelRatio this |}
  end.

Definition createPlaneAttribute (width height : Js.number)
    : list Js.number * list Js.number :=
  let x := width * (1 # 2) in
  let y := height * (1 # 2) in
  let planePosition :=
    [ - x; y; 0;
      x; y; 0;
      - x; - y; 0;
      x; - y; 0 ] in
  let planeTexCoord :=
    [ 0; 1;
      1; 1;
      0; 0;
      1; 0 ] in
  (planePosition, planeTexCoord).

Definition resize (window_innerWidth window_innerHeight : Js.number)
    (this : t) : t :=
  match canvas this with
  | None => this
  | Some _ =>
      {| canvas := Some {| width := window_innerWidth;
                           height := window_innerHeight |};
         gl := gl this; running := running this;
         previousTime := previousTime this; currentTime := currentTime this;
         time := time this; timeScale := timeScale this;
         devicePixelRatio := devicePixelRatio this |}
  end.

(** [now] is the value of [Date.now()] read by the call. *)
Definition update (now : Js.number) (this : t) : t :=
  let deltaTime := (now - previousTime this) / 1000 in
  {| canvas := canvas this; gl := gl this; running := running this;
     previousTime := now;
     currentTime := currentTime this + deltaTime;
     time := time this + deltaTime * timeScale this;
     timeScale := timeScale this;
     devicePixelRatio := devicePixelRatio this |}.

(** A run of [update()] calls, one per clock reading, oldest first. *)
Definition updates (nows : list Js.number) (this : t) : t :=
  fold_left (fun c now => update now c) nows this.

(** ** [init] *)

(** What [document.querySelector] can find. *)
Inductive Element : Type :=
| CanvasElement (cv : HTMLCanvasElement)
| OtherElement.

(** The first argument of [init]: a canvas or the value of an [id]
    attribute. *)
Inductive canvas_argument : Type :=
| Reference (cv : HTMLCanvasElement)
| Identifier (id : string).

Definition set_canvas (cv : HTMLCanvasElement) (this : t) : t :=
  {| canvas := Some cv; gl := gl this; running := running this;
     previousTime := previousTime this; currentTime := currentTime this;
     time := time this; timeScale := timeScale this;
     devicePixelRatio := devicePixelRatio this |}.

Definition set_gl (context : option GL.context) (this : t) : t :=
  {| canvas := canvas this; gl := context; running := running this;
     previousTime := previousTime this; currentTime := currentTime this;
     time := time this; timeScale := timeScale this;
     devicePixelRatio := devicePixelRatio this |}.

(** [querySelector] is [document.querySelector], which returns an
    element, [null], or throws on a selector it cannot parse;
    [getContext cv] is [cv.getContext('webgl', option)].  The object is
    mutated in place: the result carries it as the call leaves it, also
    when the call throws. *)
Definition init (querySelector : string -> outcome (option Element))
    (getContext : HTMLCanvasElement -> option GL.context)
    (canvas : canvas_argument) (this : t) : outcome unit * t :=
  let resolved :=
    match canvas with
    | Reference cv => Returns (set_canvas cv this)
    | Identifier id =>
        match querySelector (String.append "#" id) with
        | Returns (Some (CanvasElement cv)) => Returns (set_canvas cv this)
        | Returns (Some OtherElement) | Returns None => Returns this
        | Throws e => Throws e
        end
    end in
  match resolved with
  | Throws e => (Throws e, this)
  | Returns this1 =>
      match Common.canvas this1 with
      | None => (Throws (Js.Error "invalid argument"), this1)
      | Some cv =>
          let this2 := set_gl (getContext cv) this1 in
          match gl this2 with
          | None => (Throws (Js.Error "webgl not supported"), this2)
          | Some _ => (Returns tt, this2)
          end
      end
  end.


End Common.

(* ================================================================== *)
(** * modules/Pointer.ts: pointer tracker *)
(* ================================================================== *)

(** The timers of the page: [setTimeout] and [clearTimeout]. *)
Module Window.

Record timers : Type := {
  next_id : nat;
  (** the timers that are armed, with their delay in milliseconds *)
  pending : gmap nat Z
}.

(** Timer identifiers are positive. *)
Definition initial : timers := {| next_id := 1; pending := ∅ |}.

Definition setTimeout (delay : Z) (w : timers) : nat * timers :=
  (next_id w,
   {| next_id := S (next_id w);
      pending := <[next_id w := delay]> (pending w) |}).

Definition clearTimeout (id : nat) (w : timers) : timers :=
  {| next_id := next_id w; pending := delete id (pending w) |}.

End Window.

Module Pointer.
Local Open Scope Q_scope.

Record PointerCoords : Type := { x : Js.number; y : Js.number }.

Record t : Type := {
  pointerMoved : bool;
  coords : PointerCoords;
  prevCoords : PointerCoords;
  diff : PointerCoords;
  timer : option nat
}.

Definition constructor : t :=
  {| pointerMoved := false;
     coords := {| x := 0; y := 0 |};
     prevCoords := {| x := 0; y := 0 |};
     diff := {| x := 0; y := 0 |};
     timer := None |}.

(** [if (this.timer) clearTimeout(this.timer)]: [null] and the
    identifier [0] are falsy. *)
Definition clear_pending (this : t) (w : Window.timers) : Window.timers :=
  match timer this with
  | Some (S n) => Window.clearTimeout (S n) w
  | Some O | None => w
  end.

(** [canvas] is [Common.canvas] at the time of the call. *)
Definition setCoords (canvas : option Common.HTMLCanvasElement)
    (x y : Js.number) (this : t) (w : Window.timers)
    : t * Window.timers :=
  match canvas with
  | None => (this, w)
  | Some cv =>
      let w1 := clear_pending this w in
      let coordsX := (x / Common.width cv) * 2 - 1 in
      let coordsY := (- (y / Common.height cv)) * 2 + 1 in
      let '(id, w2) := Window.setTimeout 100 w1 in
      ({| pointerMoved := true;
          coords := {| x := coordsX; y := coordsY |};
          prevCoords := prevCoords this;
          diff := diff this;
          timer := Some id |}, w2)
  end.

(** The callback armed by [setCoords], run by the page when timer
    [id] expires. *)
Definition on_timeout (id : nat) (this : t) (w : Window.timers)
    : t * Window.timers :=
  match Window.pending w !! id with
  | None => (this, w)
  | Some _ =>
      ({| pointerMoved := false; coords := coords this;
          prevCoords := prevCoords this; diff := diff this;
          timer := timer this |},
       Window.clearTimeout id w)
  end.

Record PointerEvent : Type := {
  pointerType : string;
  isPrimary : bool;
  pageX : Js.number;
  pageY : Js.number;
  clientX : Js.number;
  clientY : Js.number
}.

Definition onPointerMove (canvas : option Common.HTMLCanvasElement)
    (e : PointerEvent) (this : t) (w : Window.timers)
    : t * Window.timers :=
  if String.eqb (pointerType e) "touch" && isPrimary e
  then setCoords canvas (pageX e) (pageY e) this w
  else setCoords canvas (clientX e) (clientY e) this w.

Definition onPointerDown (canvas : option Common.HTMLCanvasElement)
    (e : PointerEvent) (this : t) (w : Window.timers)
    : t * Window.timers :=
  if negb (String.eqb (pointerType e) "touch") || negb (isPrimary e)
  then (this, w)
  else setCoords canvas (pageX e) (pageY e) this w.

Definition update (this : t) : t :=
  {| pointerMoved := pointerMoved this;
     coords := coords this;
     prevCoords := {| x := x (coords this); y := y (coords this) |};
     diff := {| x := x (coords this) - x (prevCoords this);
                y := y (coords this) - y (prevCoords this) |};
     timer := timer this |}.

End Pointer.

(* ================================================================== *)
(** * modules/Gui.ts: the debug-control panel, at its interface *)
(* ================================================================== *)

Module Gui.

(** The frame-rate blade is an object of an external library.  Its
    [begin()] and [end()] run code that is not part of these sources
    and that can reach the exported [Common] singleton; what that code
    does to the singleton is left open. *)
Record FpsGraphBladeApi : Type := {
  fps_begin : Common.t -> Common.t;
  fps_end : Common.t -> Common.t
}.

Record t : Type := { fps : option FpsGraphBladeApi }.

(** The ['change'] handler of the [timeScale] binding, for a numeric
    value. *)
Definition on_timeScale_change (value : Js.number) (common : Common.t)
    : Common.t :=
  Common.set_timeScale value common.

Definition updateFps (this : t) (common : Common.t) : Common.t :=
  match fps this with
  | Some f => fps_end f (fps_begin f common)
  | None => common
  end.

Definition update (this : t) (common : Common.t) : Common.t :=
  updateFps this common.

End Gui.

(* ================================================================== *)
(** * modules/Output.ts: output stage *)
(* ================================================================== *)

Module Output.
Import GL.
Local Open Scope Q_scope.

Record Geometry : Type := {
  position : list Js.number;
  vbo : list buffer_value;
  attribute : list string;
  stride : list Js.number
}.

Record t : Type := {
  plane : option Geometry;
  shaderProgram : option ShaderProgram.t;
  gui : Gui.t
}.

Definition constructor (gui : Gui.t) : t :=
  {| plane := None; shaderProgram := None; gui := gui |}.

(** [b ?? []] *)
Definition or_empty_array (b : option handle) : buffer_value :=
  match b with
  | Some h => Buffer h
  | None => EmptyArray
  end.

Section Shaders.

(** The two shader sources, imported as raw text. *)
Variables base_vert output_frag : string.

Definition load (common : Common.t) (this : t) : M t :=
  match Common.gl common, plane this with
  | Some _, Some pl =>
      let* program :=
        ShaderProgram.constructor
          {| ShaderProgramOptions.vertexShaderSource := base_vert;
             ShaderProgramOptions.fragmentShaderSource := output_frag;
             ShaderProgramOptions.attribute := attribute pl;
             ShaderProgramOptions.stride := stride pl;
             ShaderProgramOptions.uniform :=
               Some ["uTime"; "uResolution"; "uPointer"]%string;
             ShaderProgramOptions.type :=
               Some ["uniform1f"; "uniform2fv"; "uniform2fv"]%string;
             ShaderProgramOptions.transformFeedbackVaryings := None |} in
      ret {| plane := plane this; shaderProgram := Some program;
             gui := gui this |}
  | _, _ => ret this
  end.

(** The object as [init] has it when it calls [load]: the geometry
    is assigned to [this.plane] first. *)
Definition with_plane (buffer : option handle) (this : t) : t :=
  let planePosition := fst (Common.createPlaneAttribute 2 2) in
  let planeVbo := [or_empty_array buffer] in
  let planeAttribute := ["position"%string] in
  let planeStride := [3] in
  {| plane := Some {| position := planePosition; vbo := planeVbo;
                      attribute := planeAttribute;
                      stride := planeStride |};
     shaderProgram := shaderProgram this;
     gui := gui this |}.

Definition init (common : Common.t) (this : t) : M t :=
  match Common.gl common with
  | None => ret this
  | Some _ =>
      let* buffer :=
        WebGLUtility.createVbo (fst (Common.createPlaneAttribute 2 2)) in
      load common (with_plane buffer this)
  end.

End Shaders.

Definition draw (common : Common.t) (pointer : Pointer.t)
    (cv : Common.HTMLCanvasElement) (program : ShaderProgram.t)
    (pl : Geometry) : M unit :=
  gl.bindFramebuffer None ;;;
  gl.viewport (Common.width cv) (Common.height cv) ;;;
  gl.clear ;;;
  ShaderProgram.use program ;;;
  ShaderProgram.setAttribute program (vbo pl) None ;;;
  ShaderProgram.setUniform program
    [ Js.Num (Common.time common);
      Js.Float32 [Common.width cv; Common.height cv];
      Js.Float32 [Pointer.x (Pointer.coords pointer);
                  Pointer.y (Pointer.coords pointer)] ] ;;;
  gl.drawArrays (inject_Z (Z.of_nat (length (position pl))) / 3).

Definition render (common : Common.t) (pointer : Pointer.t) (this : t)
    : M unit :=
  match Common.gl common, Common.canvas common,
        shaderProgram this, plane this with
  | Some _, Some cv, Some program, Some pl =>
      try_catch (draw common pointer cv program pl)
                (fun error => gl.console_error "Error during render:")
  | _, _, _, _ =>
      gl.console_error
        "WebGL context, canvas, shader program or plane geometry is missing."
  end.

(** The result is the [Common] singleton as the frame leaves it. *)
Definition update (common : Common.t) (pointer : Pointer.t) (this : t)
    : M Common.t :=
  render common pointer this ;;;
  ret (Gui.update (gui this) common).

End Output.

(* ================================================================== *)
(** * modules/WebGLApp.ts: application driver *)
(* ================================================================== *)

Module WebGLApp.

Record t : Type := { output : Output.t }.

(** The page the driver runs in: the two singletons, the driver, and
    the callbacks [requestAnimationFrame] holds for the next display
    refresh.  The only callback the sources ever queue is
    [this.render], so the queue is its length. *)
Record page : Type := {
  common : Common.t;
  pointer : Pointer.t;
  app : t;
  animation_frames : nat
}.

Definition set_common (c : Common.t) (p : page) : page :=
  {| common := c; pointer := pointer p; app := app p;
     animation_frames := animation_frames p |}.

Definition set_animation_frames (n : nat) (p : page) : page :=
  {| common := common p; pointer := pointer p; app := app p;
     animation_frames := n |}.

(** [requestAnimationFrame(this.render)] *)
Definition requestAnimationFrame (p : page) : page :=
  set_animation_frames (S (animation_frames p)) p.

Definition resize (window_innerWidth window_innerHeight : Js.number)
    (p : page) : page :=
  set_common (Common.resize window_innerWidth window_innerHeight (common p)) p.

Definition setup (now window_innerWidth window_innerHeight : Js.number)
    (p : page) : M page :=
  let* c := Common.setup now (common p) in
  let p1 := resize window_innerWidth window_innerHeight (set_common c p) in
  ret (set_common (Common.set_running true (common p1)) p1).

(** The two statements of [render] that follow the scheduling. *)
Definition frame_work (now : Js.number) (p : page) : M page :=
  let c := Common.update now (common p) in
  let* c' := Output.update c (pointer p) (output (app p)) in
  ret (set_common c' p).

Definition render (now : Js.number) (p : page) : M page :=
  let scheduled :=
    if Common.running (common p) then requestAnimationFrame p else p in
  frame_work now scheduled.

(** One display refresh: the page takes a queued callback, if there is
    one, and runs it. *)
Definition animation_frame (now : Js.number) (p : page) : M page :=
  match animation_frames p with
  | O => ret p
  | S n => render now (set_animation_frames n p)
  end.

(** The refreshes that follow, one per clock reading. *)
Fixpoint animation_frames_run (nows : list Js.number) (p : page) : M page :=
  match nows with
  | [] => ret p
  | now :: rest =>
      let* p' := animation_frame now p in
      animation_frames_run rest p'
  end.

End WebGLApp.

(* ================================================================== *)
(** * Vocabulary of the statements *)
(* ================================================================== *)

Module Spec.
Import GL.

(** A context that has just been created on a platform [d]. *)
Definition new_context (d : driver) : state :=
  {| drv := d; next_handle := 1; shaders := ∅; programs := ∅;
     current_program := None; framebuffers := ∅; renderbuffers := ∅;
     textures := ∅; bound_framebuffer := None; bound_renderbuffer := None;
     bound_texture := None; log := []; notices := [] |}.

(** A platform on which nothing fails, with the [uniform*] methods of
    the context. *)
Definition obliging : driver :=
  {| can_alloc := fun _ => true;
     compiles := fun _ _ => true;
     links := fun _ _ => true;
     info_log := fun _ => ""%string;
     attrib_location := fun _ _ => 0%Z;
     uniform_location := fun _ _ => Some 0%nat;
     has_method := fun name => String.prefix "uniform" name;
     is_webgl2 := false |}.

(** A platform on which every object creation fails (a lost context). *)
Definition exhausted : driver :=
  {| can_alloc := fun _ => false;
     compiles := fun _ _ => true;
     links := fun _ _ => true;
     info_log := fun _ => ""%string;
     attrib_location := fun _ _ => 0%Z;
     uniform_location := fun _ _ => Some 0%nat;
     has_method := fun name => String.prefix "uniform" name;
     is_webgl2 := false |}.

(** The state with some more calls on its trace and nothing else
    changed. *)
Definition traced (cs : list call) (s : state) : state :=
  fold_left (fun s' c => record c s') cs s.

(** The state without its trace: what the context holds. *)
Definition content (s : state) : state :=
  {| drv := drv s; next_handle := next_handle s; shaders := shaders s;
     programs := programs s; current_program := current_program s;
     framebuffers := framebuffers s; renderbuffers := renderbuffers s;
     textures := textures s; bound_framebuffer := bound_framebuffer s;
     bound_renderbuffer := bound_renderbuffer s;
     bound_texture := bound_texture s; log := [];
     notices := notices s |}.

Definition is_query (c : call) : bool :=
  match c with
  | IsFramebuffer _ | IsRenderbuffer _ | IsTexture _ => true
  | _ => false
  end.

Definition is_Returns {A} (r : outcome A * state) : bool :=
  match r with
  | (Returns _, _) => true
  | (Throws _, _) => false
  end.

(** ** Release of a render target *)

Import WebGLUtility.

(** The calls one block of [deleteFramebuffer] makes for a property
    [f]: the query when the property is the object's own, followed,
    when the query answered [valid], by the unbinding and then the
    deletion. *)
Definition release_trace (query : option handle -> call) (unbind : call)
    (delete : option handle -> call) (f : slot) (valid : bool) : list call :=
  if hasOwnProperty f
  then query (slot_value f)
         :: (if valid then [unbind; delete (slot_value f)] else [])
  else [].

(** No property of the object refers to an object of the context. *)
Definition released (s : state) (o : bundle) : Prop :=
  gl.valid_framebuffer s (slot_value (framebuffer o)) = false
  /\ gl.valid_renderbuffer s (slot_value (renderbuffer o)) = false
  /\ gl.valid_texture s (slot_value (texture o)) = false.

Definition cleared (valid : bool) (f : slot) : slot :=
  if valid then Null else f.

Definition probe (query : option handle -> call) (f : slot) : list call :=
  if hasOwnProperty f then [query (slot_value f)] else [].

(** The queries a call makes on an object it has nothing to do for. *)
Definition probes (o : bundle) : list call :=
  probe IsFramebuffer (framebuffer o)
  ++ probe IsRenderbuffer (renderbuffer o)
  ++ probe IsTexture (texture o).

(** ** Traces and outcomes of computations *)

(** The computation only adds calls to the trace. *)
Definition appends {A} (m : M A) : Prop :=
  forall s, exists cs, log (snd (m s)) = log s ++ cs.

(** The computation never throws. *)
Definition returns {A} (m : M A) : Prop :=
  forall s, exists a s', m s = (Returns a, s').

(** The first call the computation makes on the context is [c]. *)
Definition starts_with {A} (c : call) (m : M A) : Prop :=
  forall s, exists rest, log (snd (m s)) = log s ++ c :: rest.

(** ** Descriptors of a shader program *)

(** The attribute names and the strides are as many. *)
Definition attributes_paired (options : ShaderProgramOptions.t) : Prop :=
  length (ShaderProgramOptions.attribute options)
  = length (ShaderProgramOptions.stride options).

(** The uniform names and the update tags are both left out, or both
    given and as many. *)
Definition uniforms_paired (options : ShaderProgramOptions.t) : Prop :=
  (ShaderProgramOptions.uniform options = None
   /\ ShaderProgramOptions.type options = None)
  \/ (exists u t, ShaderProgramOptions.uniform options = Some u
                  /\ ShaderProgramOptions.type options = Some t
                  /\ length u = length t).

(** What construction needs from the platform, in a context [s]: the
    three objects it creates (two shaders and the program, in this
    order) are granted, both sources compile, and they link, with the
    captured outputs when the transform-feedback path is taken. *)
Definition platform_accepts (s : state) (options : ShaderProgramOptions.t)
    : bool :=
  let n := next_handle s in
  let vs := ShaderProgramOptions.vertexShaderSource options in
  let fs := ShaderProgramOptions.fragmentShaderSource options in
  let tf := ShaderProgramOptions.transformFeedbackVaryings options in
  can_alloc (drv s) n && can_alloc (drv s) (S n)
  && can_alloc (drv s) (S (S n))
  && compiles (drv s) VERTEX_SHADER vs
  && compiles (drv s) FRAGMENT_SHADER fs
  && links (drv s) [vs; fs]
       (if is_webgl2 (drv s) && ShaderProgram.non_empty_array tf
        then tf else None).

Definition quad_options : ShaderProgramOptions.t :=
  {| ShaderProgramOptions.vertexShaderSource := "void main() {}";
     ShaderProgramOptions.fragmentShaderSource := "void main() {}";
     ShaderProgramOptions.attribute := ["position"%string];
     ShaderProgramOptions.stride := [3%Q];
     ShaderProgramOptions.uniform := Some ["uTime"%string];
     ShaderProgramOptions.type := Some ["uniform1f"%string];
     ShaderProgramOptions.transformFeedbackVaryings := None |}.

Definition skewed_options : ShaderProgramOptions.t :=
  {| ShaderProgramOptions.vertexShaderSource := "void main() {}";
     ShaderProgramOptions.fragmentShaderSource := "void main() {}";
     ShaderProgramOptions.attribute := ["position"%string];
     ShaderProgramOptions.stride := [3%Q];
     ShaderProgramOptions.uniform := Some ["uTime"%string];
     ShaderProgramOptions.type := None;
     ShaderProgramOptions.transformFeedbackVaryings := None |}.


(** ** Uniform updates *)

(** The call [setUniform] makes for one value: the method named by
    the tag, with the do-not-transpose flag for a matrix-shaped tag. *)
Definition uniform_call (tag : string) (location : option handle)
    (v : Js.value) : call :=
  Invoke tag (if Js.includes "Matrix" tag
              then [ALocation location; ABool false; AValue v]
              else [ALocation location; AValue v]).

Fixpoint uniform_calls (tags : list string)
    (locations : list (option handle)) (value : list Js.value)
    : list call :=
  match tags, locations, value with
  | tag :: tags', l :: locations', v :: value' =>
      uniform_call tag l v :: uniform_calls tags' locations' value'
  | _, _, _ => []
  end.

(** A program with no uniforms, and one with a scalar and a matrix. *)
Definition bare_program : ShaderProgram.t :=
  {| ShaderProgram.vertexShaderSource := "void main() {}";
     ShaderProgram.fragmentShaderSource := "void main() {}";
     ShaderProgram.attribute := ["position"%string];
     ShaderProgram.stride := [3%Q];
     ShaderProgram.uniform := None;
     ShaderProgram.type := None;
     ShaderProgram.transformFeedbackVaryings := None;
     ShaderProgram.vertexShader := 1%nat;
     ShaderProgram.fragmentShader := 2%nat;
     ShaderProgram.program := 3%nat;
     ShaderProgram.attributeLocation := [0%Z];
     ShaderProgram.uniformLocation := None |}.

Definition lit_program : ShaderProgram.t :=
  {| ShaderProgram.vertexShaderSource := "void main() {}";
     ShaderProgram.fragmentShaderSource := "void main() {}";
     ShaderProgram.attribute := ["position"%string];
     ShaderProgram.stride := [3%Q];
     ShaderProgram.uniform := Some ["uTime"; "uTransform"]%string;
     ShaderProgram.type := Some ["uniform1f"; "uniformMatrix2fv"]%string;
     ShaderProgram.transformFeedbackVaryings := None;
     ShaderProgram.vertexShader := 1%nat;
     ShaderProgram.fragmentShader := 2%nat;
     ShaderProgram.program := 3%nat;
     ShaderProgram.attributeLocation := [0%Z];
     ShaderProgram.uniformLocation := Some [Some 4%nat; Some 5%nat] |}.

(** ** The output stage *)

(** A platform that refuses the first object it is asked for and
    nothing after. *)
Definition flaky : driver :=
  {| can_alloc := fun n => negb (n =? 1)%nat;
     compiles := fun _ _ => true;
     links := fun _ _ => true;
     info_log := fun _ => ""%string;
     attrib_location := fun _ _ => 0%Z;
     uniform_location := fun _ _ => Some 0%nat;
     has_method := fun name => String.prefix "uniform" name;
     is_webgl2 := false |}.

(** The options [Output.load] passes to the constructor. *)
Definition output_options (base_vert output_frag : string)
    : ShaderProgramOptions.t :=
  {| ShaderProgramOptions.vertexShaderSource := base_vert;
     ShaderProgramOptions.fragmentShaderSource := output_frag;
     ShaderProgramOptions.attribute := ["position"%string];
     ShaderProgramOptions.stride := [3%Q];
     ShaderProgramOptions.uniform :=
       Some ["uTime"; "uResolution"; "uPointer"]%string;
     ShaderProgramOptions.type :=
       Some ["uniform1f"; "uniform2fv"; "uniform2fv"]%string;
     ShaderProgramOptions.transformFeedbackVaryings := None |}.

(** A [Common] that has been initialised on a canvas. *)
Definition ready (cv : Common.HTMLCanvasElement) : Common.t :=
  {| Common.canvas := Some cv; Common.gl := Some Context;
     Common.running := true; Common.previousTime := 0%Q;
     Common.currentTime := 0%Q; Common.time := 0%Q;
     Common.timeScale := 1%Q; Common.devicePixelRatio := 1%Q |}.


(** ** The frame loop *)

(** A frame-rate blade whose [end()] runs code that stops the loop. *)
Definition stopping_fps : Gui.FpsGraphBladeApi :=
  {| Gui.fps_begin := fun c => c;
     Gui.fps_end := Common.set_running false |}.

(** A page about to call [render] for the first time: nothing is
    queued, the loop is running, the output stage is not initialised. *)
Definition starting_page (gui : Gui.t) : WebGLApp.page :=
  {| WebGLApp.common :=
       ready {| Common.width := 800%Q; Common.height := 600%Q |};
     WebGLApp.pointer := Pointer.constructor;
     WebGLApp.app := {| WebGLApp.output := Output.constructor gui |};
     WebGLApp.animation_frames := 0 |}.


(** ** Further vocabulary *)

(** The calls of [WebGLUtility.createShader] on a shader [n]. *)
Definition createShader_trace (granted compiled : bool) (t : shader_type)
    (n : handle) (source : string) : list call :=
  if granted
  then ([CreateShader t; ShaderSource n source; CompileShader n;
         GetShaderParameter n]
        ++ (if compiled then [] else [GetShaderInfoLog n]))
  else [CreateShader t].

(** The three object names [createFramebuffer] takes are unused. *)
Definition fresh_names (s : state) : Prop :=
  (next_handle s ∉ framebuffers s)
  /\ renderbuffers s !! (S (next_handle s)) = None
  /\ textures s !! (S (S (next_handle s))) = None.

(** The calls of a buffer upload. *)
Definition upload_trace (t : buffer_target) (a : typed_array)
    (b : handle) (data : list Js.number) : list call :=
  [CreateBuffer; BindBuffer t (Some b); BufferData t a data; BindBuffer t None].

(** The calls [setAttribute] makes for one vertex buffer. *)
Definition attribute_call (b : handle) (location : Z) (size : Js.number)
    : list call :=
  [BindBuffer ARRAY_BUFFER (Some b); EnableVertexAttribArray location;
   VertexAttribPointer location size].

Fixpoint attribute_calls (buffers : list handle) (locations : list Z)
    (strides : list Js.number) : list call :=
  match buffers, locations, strides with
  | b :: buffers', l :: locations', n :: strides' =>
      attribute_call b l n ++ attribute_calls buffers' locations' strides'
  | _, _, _ => []
  end.

(** [ibo != null] *)
Definition index_buffer_call (ibo : option handle) : list call :=
  match ibo with
  | Some _ => [BindBuffer ELEMENT_ARRAY_BUFFER ibo]
  | None => []
  end.

(** A program one of whose tags is not the name of a method. *)
Definition mistagged_program : ShaderProgram.t :=
  {| ShaderProgram.vertexShaderSource := "void main() {}";
     ShaderProgram.fragmentShaderSource := "void main() {}";
     ShaderProgram.attribute := ["position"%string];
     ShaderProgram.stride := [3%Q];
     ShaderProgram.uniform := Some ["uTime"; "uColor"]%string;
     ShaderProgram.type := Some ["uniform1f"; "vec3"]%string;
     ShaderProgram.transformFeedbackVaryings := None;
     ShaderProgram.vertexShader := 1%nat;
     ShaderProgram.fragmentShader := 2%nat;
     ShaderProgram.program := 3%nat;
     ShaderProgram.attributeLocation := [0%Z];
     ShaderProgram.uniformLocation := Some [Some 4%nat; Some 5%nat] |}.

(** [render] has what it needs to draw. *)
Definition can_draw (common : Common.t) (this : Output.t) : bool :=
  match Common.gl common, Common.canvas common,
        Output.shaderProgram this, Output.plane this with
  | Some _, Some _, Some _, Some _ => true
  | _, _, _, _ => false
  end.

(** The calls of one frame of the output stage. *)
Definition frame_trace (common : Common.t) (pointer : Pointer.t)
    (cv : Common.HTMLCanvasElement) (p b : handle) (location : Z)
    (uTime uResolution uPointer : option handle) : list call :=
  [BindFramebuffer None;
   Viewport (Common.width cv) (Common.height cv);
   Clear;
   UseProgram p;
   BindBuffer ARRAY_BUFFER (Some b);
   EnableVertexAttribArray location;
   VertexAttribPointer location 3%Q;
   Invoke "uniform1f" [ALocation uTime; AValue (Js.Num (Common.time common))];
   Invoke "uniform2fv"
     [ALocation uResolution;
      AValue (Js.Float32 [Common.width cv; Common.height cv])];
   Invoke "uniform2fv"
     [ALocation uPointer;
      AValue (Js.Float32 [Pointer.x (Pointer.coords pointer);
                          Pointer.y (Pointer.coords pointer)])];
   DrawArrays (12 / 3)%Q].


End Spec.

(** ** The clock *)

Module ClockSpec.
Local Open Scope Q_scope.

(** Seconds elapsed before each call of a run: [d1], [d2], ... *)
Fixpoint deltas (previous : Js.number) (nows : list Js.number)
    : list Js.number :=
  match nows with
  | [] => []
  | now :: rest => (now - previous) / 1000 :: deltas now rest
  end.

Definition total (ds : list Js.number) : Js.number :=
  fold_right Qplus 0 ds.

(** What happens to the clock between two frames: a frame calls
    [update()], the slider of the panel sets the scale. *)
Inductive clock_event : Type :=
| Frame (now : Js.number)
| Slider (value : Js.number).

Definition clock_step (c : Common.t) (e : clock_event) : Common.t :=
  match e with
  | Frame now => Common.update now c
  | Slider value => Gui.on_timeScale_change value c
  end.

Definition clock_run (events : list clock_event) (c : Common.t) : Common.t :=
  fold_left clock_step events c.

(** The readings never run backwards and the slider never goes below
    zero. *)
Fixpoint orderly (previous : Js.number) (events : list clock_event) : Prop :=
  match events with
  | [] => True
  | Frame now :: rest => previous <= now /\ orderly now rest
  | Slider value :: rest => 0 <= value /\ orderly previous rest
  end.

(** A clock that was last read at [previous] and runs at [scale]. *)
Definition clock_at (previous scale : Js.number) : Common.t :=
  {| Common.canvas := None; Common.gl := None; Common.running := true;
     Common.previousTime := previous; Common.currentTime := 0;
     Common.time := 0; Common.timeScale := scale;
     Common.devicePixelRatio := 1 |}.

End ClockSpec.

(* ================================================================== *)
(** * Properties of [WebGLUtility] *)
(* ================================================================== *)

Module WebGLUtilityFacts.
Import GL WebGLUtility Spec.

(** C7.  When the 32-bit-index capability is absent (the capabilities
    record is [null], or its [elementIndexUint] is [null]),
    [createIboInt] throws an [Error]; its result type has no [null];
    and the context is left exactly as it was: no call was made on it,
    so no buffer was created. *)
Theorem createIboInt_requires_elementIndexUint
    (ext : option WebGLExtensions) (data : list Js.number) (s : state) :
  ext = None \/ (exists e, ext = Some e /\ elementIndexUint e = None) ->
  createIboInt ext data s
  = (Throws (Js.Error "element index Uint not supported"), s).
Proof.
  intros [-> | (e & -> & He)]; unfold createIboInt; cbn.
  - reflexivity.
  - rewrite He. reflexivity.
Qed.

Lemma createIboInt_requires_elementIndexUint_witness :
  (exists e, Some {| elementIndexUint := None; textureFloat := Some tt;
                     textureHalfFloat := None |} = Some e
             /\ elementIndexUint e = None)
  /\ createIboInt
       (Some {| elementIndexUint := None; textureFloat := Some tt;
                textureHalfFloat := None |})
       [0%Q; 1%Q; 2%Q] (new_context obliging)
     = (Throws (Js.Error "element index Uint not supported"),
        new_context obliging).
Proof.
  split.
  - eexists. split; reflexivity.
  - apply createIboInt_requires_elementIndexUint.
    right. eexists. split; reflexivity.
Defined.

(** With the capability present the same call does reach the context. *)
Example createIboInt_with_capability :
  log (snd (createIboInt
              (Some {| elementIndexUint := Some tt; textureFloat := None;
                       textureHalfFloat := None |})
              [0%Q; 1%Q; 2%Q] (new_context obliging)))
  = [CreateBuffer; BindBuffer ELEMENT_ARRAY_BUFFER (Some 1%nat);
     BufferData ELEMENT_ARRAY_BUFFER Uint32Array [0%Q; 1%Q; 2%Q];
     BindBuffer ELEMENT_ARRAY_BUFFER None].
Proof. reflexivity. Qed.

(** ** [deleteFramebuffer] *)

Lemma framebuffer_gone (h : handle) (X : gset handle) :
  bool_decide (h ∈ X ∖ {[h]}) = false.
Proof.
  apply bool_decide_eq_false.
  intros [_ Hn]%elem_of_difference. apply Hn. by apply elem_of_singleton.
Qed.

Lemma object_gone {V} (h : handle) (m : gmap handle V) :
  bool_decide (is_Some (delete h m !! h)) = false.
Proof.
  apply bool_decide_eq_false. rewrite lookup_delete_eq.
  intros [? ?]. discriminate.
Qed.

Lemma content_traced cs s : content (traced cs s) = content s.
Proof.
  revert s. induction cs as [|c cs IH]; intros s; [reflexivity|].
  cbn. rewrite IH. reflexivity.
Qed.

Lemma log_traced cs s : log (traced cs s) = log s ++ cs.
Proof.
  revert s. induction cs as [|c cs IH]; intros s; cbn.
  - by rewrite app_nil_r.
  - rewrite IH. cbn. by rewrite <- app_assoc.
Qed.

Lemma probes_are_queries o : forallb is_query (probes o) = true.
Proof. by destruct o as [[| |?] [| |?] [| |?]]. Qed.

Ltac run_delete :=
  unfold deleteFramebuffer, and_then, bind, ret, modify,
    gl.isFramebuffer, gl.isRenderbuffer, gl.isTexture,
    gl.bindFramebuffer, gl.bindRenderbuffer, gl.bindTexture,
    gl.deleteFramebuffer, gl.deleteRenderbuffer, gl.deleteTexture; cbn.

Ltac case_valid :=
  repeat (match goal with
          | H : bool_decide ?P = _ |- context [bool_decide ?P] => rewrite H
          | |- context [bool_decide ?P] => destruct (bool_decide P) eqn:?
          end; cbn).

(** On an object that refers to nothing the call only asks. *)
Lemma deleteFramebuffer_released (o : bundle) (s : state) :
  released s o ->
  deleteFramebuffer (Some o) s = (Returns (Some o), traced (probes o) s).
Proof.
  destruct o as [[| |hf] [| |hr] [| |ht]]; intros (Hf & Hr & Ht);
    cbn in Hf, Hr, Ht; run_delete;
    rewrite ?Hf, ?Hr, ?Ht; cbn; rewrite ?Hf, ?Hr, ?Ht; cbn;
    rewrite ?Hf, ?Hr, ?Ht; reflexivity.
Qed.

Lemma deleteFramebuffer_first_call (o : bundle) (s : state) :
  exists o1 s1,
    deleteFramebuffer (Some o) s = (Returns (Some o1), s1)
    /\ log s1
       = log s
         ++ release_trace IsFramebuffer (BindFramebuffer None)
              DeleteFramebuffer (framebuffer o)
              (gl.valid_framebuffer s (slot_value (framebuffer o)))
         ++ release_trace IsRenderbuffer (BindRenderbuffer None)
              DeleteRenderbuffer (renderbuffer o)
              (gl.valid_renderbuffer s (slot_value (renderbuffer o)))
         ++ release_trace IsTexture (BindTexture None)
              DeleteTexture (texture o)
              (gl.valid_texture s (slot_value (texture o)))
    /\ o1 = {| framebuffer :=
                 cleared (gl.valid_framebuffer s (slot_value (framebuffer o)))
                         (framebuffer o);
               renderbuffer :=
                 cleared (gl.valid_renderbuffer s (slot_value (renderbuffer o)))
                         (renderbuffer o);
               texture :=
                 cleared (gl.valid_texture s (slot_value (texture o)))
                         (texture o) |}
    /\ released s1 o
    /\ released s1 o1.
Proof.
  destruct o as [[| |hf] [| |hr] [| |ht]]; run_delete; case_valid;
    eexists _, _; (split; [reflexivity|]); cbn;
    unfold released; cbn;
    rewrite ?framebuffer_gone, ?object_gone, <- ?app_assoc, ?app_nil_r; cbn;
    repeat split; auto.
Qed.

(** C5.  [deleteFramebuffer] is idempotent.  On [null] it does
    nothing.  On an object [o], one call returns normally and

    - for each property that is the object's own it asks the context
      whether the property is a live object and, if so, unbinds the
      binding point and then deletes the object (the trace grows by
      exactly these calls, in this order);
    - each property that held a live object is [null] afterwards, the
      others are as they were;
    - nothing the object referred to, and nothing it refers to now, is
      a live object any more: it is fully released.

    A second call on the object the first one left returns the same
    object, makes only [is*] queries, and leaves what the context
    holds unchanged. *)
Theorem deleteFramebuffer_idempotent (obj : option bundle) (s : state) :
  match obj with
  | None => deleteFramebuffer None s = (Returns None, s)
  | Some o =>
      let vf := gl.valid_framebuffer s (slot_value (framebuffer o)) in
      let vr := gl.valid_renderbuffer s (slot_value (renderbuffer o)) in
      let vt := gl.valid_texture s (slot_value (texture o)) in
      exists o1 s1,
        deleteFramebuffer (Some o) s = (Returns (Some o1), s1)
        /\ log s1
           = log s
             ++ release_trace IsFramebuffer (BindFramebuffer None)
                  DeleteFramebuffer (framebuffer o) vf
             ++ release_trace IsRenderbuffer (BindRenderbuffer None)
                  DeleteRenderbuffer (renderbuffer o) vr
             ++ release_trace IsTexture (BindTexture None)
                  DeleteTexture (texture o) vt
        /\ o1 = {| framebuffer := cleared vf (framebuffer o);
                   renderbuffer := cleared vr (renderbuffer o);
                   texture := cleared vt (texture o) |}
        /\ released s1 o
        /\ released s1 o1
        /\ deleteFramebuffer (Some o1) s1
           = (Returns (Some o1), traced (probes o1) s1)
        /\ content (traced (probes o1) s1) = content s1
        /\ forallb is_query (probes o1) = true
  end.
Proof.
  destruct obj as [o|]; [|reflexivity].
  cbn zeta.
  destruct (deleteFramebuffer_first_call o s)
    as (o1 & s1 & Hrun & Hlog & Ho1 & Hrel & Hrel1).
  exists o1, s1.
  refine (conj Hrun (conj Hlog (conj Ho1 (conj Hrel (conj Hrel1
            (conj _ (conj _ _))))))).
  - by apply deleteFramebuffer_released.
  - apply content_traced.
  - apply probes_are_queries.
Qed.

(** A render target made by [createFramebuffer], released twice. *)
Example deleteFramebuffer_twice :
  let '(made, s0) := createFramebuffer 4%Q 4%Q (new_context obliging) in
  match made with
  | Throws _ => False
  | Returns o =>
      o = {| framebuffer := Object 1%nat; renderbuffer := Object 2%nat;
             texture := Object 3%nat |}
      /\ let '(once, s1) := deleteFramebuffer (Some o) s0 in
         let '(twice, s2) := deleteFramebuffer
                               (Some {| framebuffer := Null;
                                        renderbuffer := Null;
                                        texture := Null |}) s1 in
         once = Returns (Some {| framebuffer := Null; renderbuffer := Null;
                                 texture := Null |})
         /\ twice = once
         /\ content s2 = content s1
         /\ skipn (length (log s0)) (log s1)
            = [IsFramebuffer (Some 1%nat); BindFramebuffer None;
               DeleteFramebuffer (Some 1%nat);
               IsRenderbuffer (Some 2%nat); BindRenderbuffer None;
               DeleteRenderbuffer (Some 2%nat);
               IsTexture (Some 3%nat); BindTexture None;
               DeleteTexture (Some 3%nat)]
         /\ skipn (length (log s1)) (log s2)
            = [IsFramebuffer None; IsRenderbuffer None; IsTexture None]
  end.
Proof. vm_compute. repeat split. Qed.

(** ** [resizeFramebuffer] *)

Ltac run_resize :=
  unfold resizeFramebuffer, this_buffers_field, and_then, bind, ret, throw,
    modify, gl.isRenderbuffer, gl.isTexture, gl.bindRenderbuffer,
    gl.bindTexture, gl.renderbufferStorage, gl.texImage2D; cbn.

Lemma resizeFramebuffer_null buffers width height s :
  resizeFramebuffer buffers None width height s = (Returns tt, s).
Proof. reflexivity. Qed.

(** The part of the contract the code does keep: nothing happens when
    the object holds no live renderbuffer and no live texture. *)
Lemma resizeFramebuffer_no_target buffers o width height s :
  gl.valid_renderbuffer s (slot_value (renderbuffer o)) = false ->
  gl.valid_texture s (slot_value (texture o)) = false ->
  resizeFramebuffer buffers (Some o) width height s
  = (Returns tt,
     traced (probe IsRenderbuffer (renderbuffer o)
             ++ probe IsTexture (texture o)) s).
Proof.
  destruct o as [f [| |hr] [| |ht]]; intros Hr Ht; cbn in Hr, Ht;
    run_resize; rewrite ?Hr, ?Ht; cbn; rewrite ?Hr, ?Ht; reflexivity.
Qed.

(** With a live renderbuffer in the object passed, and a receiver
    that has no [buffers] property, the call throws before it binds
    anything; no storage is reallocated. *)
Lemma resizeFramebuffer_without_buffers o width height s :
  gl.valid_renderbuffer s (slot_value (renderbuffer o)) = true ->
  resizeFramebuffer None (Some o) width height s
  = (Throws (Js.TypeError "Cannot read properties of undefined"),
     traced [IsRenderbuffer (slot_value (renderbuffer o))] s).
Proof.
  destruct o as [f [| |hr] t]; intros Hr; cbn in Hr; try discriminate.
  run_resize. rewrite Hr. reflexivity.
Qed.

(** With a receiver whose [buffers] is some other object [b], it is
    the renderbuffer of [b] whose storage is reallocated; the storage
    of the renderbuffer passed is as before. *)
Lemma resizeFramebuffer_resizes_buffers b o width height s r r' :
  renderbuffer o = Object r ->
  renderbuffer b = Object r' ->
  r <> r' ->
  is_Some (renderbuffers s !! r) ->
  is_Some (renderbuffers s !! r') ->
  exists s',
    snd (resizeFramebuffer (Some b) (Some o) width height s) = s'
    /\ renderbuffers s' !! r = renderbuffers s !! r
    /\ renderbuffers s' !! r' = Some (Some (width, height)).
Proof.
  intros Ho Hb Hne Hr Hr'.
  pose proof (bool_decide_eq_true_2 _ Hr) as Hbr.
  pose proof (bool_decide_eq_true_2 _ Hr') as Hbr'.
  destruct o as [f ro t], b as [fb rb tb]; cbn in Ho, Hb; subst.
  destruct t as [| |ht], tb as [| |hb]; run_resize; case_valid;
    (eexists; split; [reflexivity|]); cbn;
    try destruct (bound_texture s); cbn;
    rewrite lookup_insert_ne by congruence; rewrite lookup_insert_eq; done.
Qed.

(** C1.  [resizeFramebuffer] does not act on the object it is passed.
    It tests the renderbuffer and the texture of its argument, but
    binds [this.buffers.renderbuffer] and [this.buffers.texture].  Two
    render targets are made, 4 by 4.  Asked to resize the first to 8
    by 8,

    - with a receiver that has no [buffers] property (the class as
      written) the call throws a [TypeError], and the storage of the
      first target is still 4 by 4;
    - with a receiver whose [buffers] is the second target the call
      returns, the storage of the first target is still 4 by 4, and it
      is the second target that is now 8 by 8. *)
Theorem resizeFramebuffer_misses_its_argument :
  let '(first, s1) := createFramebuffer 4%Q 4%Q (new_context obliging) in
  let '(second, s2) := createFramebuffer 4%Q 4%Q s1 in
  match first, second with
  | Returns o, Returns other =>
      o = {| framebuffer := Object 1%nat; renderbuffer := Object 2%nat;
             texture := Object 3%nat |}
      /\ other = {| framebuffer := Object 4%nat; renderbuffer := Object 5%nat;
             texture := Object 6%nat |}
      /\ (let '(r, s3) := resizeFramebuffer None (Some o) 8%Q 8%Q s2 in
          r = Throws (Js.TypeError "Cannot read properties of undefined")
          /\ renderbuffers s3 !! 2%nat = Some (Some (4%Q, 4%Q))
          /\ textures s3 !! 3%nat = Some (Some (4%Q, 4%Q)))
      /\ (let '(r, s3) := resizeFramebuffer (Some other) (Some o) 8%Q 8%Q s2 in
          r = Returns tt
          /\ renderbuffers s3 !! 2%nat = Some (Some (4%Q, 4%Q))
          /\ textures s3 !! 3%nat = Some (Some (4%Q, 4%Q))
          /\ renderbuffers s3 !! 5%nat = Some (Some (8%Q, 8%Q))
          /\ textures s3 !! 6%nat = Some (Some (8%Q, 8%Q)))
  | _, _ => False
  end.
Proof. vm_compute. repeat split. Qed.

(** ** Creation of shaders, programs, buffers and render targets *)

(** X1.  [createShader] never throws.  It returns the new shader
    exactly when the platform grants the object and compiles the
    source.  When the object is refused it makes the one call
    [createShader] and shows nothing; when compilation fails it reads
    the info log, shows it in an alert, and returns [null]. *)
Theorem createShader_reports (source : string) (t : shader_type) (s : state) :
  let n := next_handle s in
  let granted := can_alloc (drv s) n in
  let compiled := compiles (drv s) t source in
  exists s',
    createShader source t s
    = (Returns (if granted && compiled then Some n else None), s')
    /\ log s' = log s ++ createShader_trace granted compiled t n source
    /\ notices s'
       = notices s
         ++ (if granted && negb compiled
             then [Alert (info_log (drv s) n)] else []).
Proof.
  cbn zeta.
  unfold createShader, gl.createShader, gl.alloc, bind, createShader_trace.
  cbn.
  destruct (can_alloc (drv s) (next_handle s)) eqn:Ha; cbn.
  - unfold handle in *. rewrite !lookup_alter_eq, lookup_insert_eq. cbn.
    destruct (compiles (drv s) t source) eqn:Hc; cbn;
      (eexists; split; [reflexivity|]); cbn;
      rewrite <- ?app_assoc, ?app_nil_r; done.
  - eexists; split; [reflexivity|]. cbn. by rewrite app_nil_r.
Qed.

Lemma bind_modify {B} (f : state -> state) (k : unit -> M B) s :
  bind (modify f) k s = k tt (f s).
Proof. reflexivity. Qed.

(** X2.  [createProgram] and [createTransformFeedbackProgram] never
    throw.  A program that is returned is the object just created and
    is left as the current program, and nothing is shown.  When [null]
    is returned the current program is the one it was, and the info log
    has been shown in an alert if the object had been granted (the link
    failed), nothing if it had not. *)
Theorem createProgram_selects_on_success
    (vs fs : handle) (varyings : list string) (s : state) :
  let n := next_handle s in
  (exists r s',
     createProgram vs fs s = (Returns r, s')
     /\ match r with
        | Some p =>
            p = n /\ current_program s' = Some p /\ notices s' = notices s
        | None =>
            current_program s' = current_program s
            /\ notices s'
               = notices s
                 ++ (if can_alloc (drv s) n
                     then [Alert (info_log (drv s) n)] else [])
        end)
  /\ (exists r s',
        createTransformFeedbackProgram vs fs varyings s = (Returns r, s')
        /\ match r with
           | Some p =>
               p = n /\ current_program s' = Some p /\ notices s' = notices s
           | None =>
               current_program s' = current_program s
               /\ notices s'
                  = notices s
                    ++ (if can_alloc (drv s) n
                        then [Alert (info_log (drv s) n)] else [])
           end).
Proof.
  cbn zeta. split.
  - unfold createProgram, gl.createProgram.
    unfold bind at 1. unfold bind at 1. unfold gl.alloc.
    destruct (can_alloc (drv s) (next_handle s)) eqn:Ha.
    + unfold bind at 1. unfold modify at 1. unfold ret at 1.
      unfold gl.attachShader. rewrite !bind_modify.
      unfold gl.linkProgram. rewrite bind_modify.
      unfold bind, gl.getProgramParameter.
      match goal with |- context [if ?b then _ else _] => destruct b end;
        eexists _, _; (split; [reflexivity|]); cbn; by rewrite ?app_nil_r.
    + eexists _, _; (split; [reflexivity|]); cbn; by rewrite ?app_nil_r.
  - unfold createTransformFeedbackProgram, gl.createProgram.
    unfold bind at 1. unfold bind at 1. unfold gl.alloc.
    destruct (can_alloc (drv s) (next_handle s)) eqn:Ha.
    + unfold bind at 1. unfold modify at 1. unfold ret at 1.
      unfold gl.attachShader. rewrite !bind_modify.
      unfold gl.transformFeedbackVaryings. rewrite bind_modify.
      unfold gl.linkProgram. rewrite bind_modify.
      unfold bind, gl.getProgramParameter.
      match goal with |- context [if ?b then _ else _] => destruct b end;
        eexists _, _; (split; [reflexivity|]); cbn; by rewrite ?app_nil_r.
    + eexists _, _; (split; [reflexivity|]); cbn; by rewrite ?app_nil_r.
Qed.

Ltac state_simpl :=
  cbn [drv next_handle shaders programs current_program framebuffers
       renderbuffers textures bound_framebuffer bound_renderbuffer
       bound_texture log notices set_next_handle set_shaders set_programs
       set_current_program set_framebuffers set_renderbuffers set_textures
       set_bound_framebuffer set_bound_renderbuffer set_bound_texture
       record notify fst snd andb negb orb].

Lemma framebuffer_present (h : handle) (X : gset handle) :
  bool_decide (h ∈ {[h]} ∪ X) = true.
Proof.
  apply bool_decide_eq_true, elem_of_union_l. by apply elem_of_singleton.
Qed.

Lemma object_present {V} (h : handle) (v : V) (m : gmap handle V) :
  bool_decide (is_Some (<[h:=v]> m !! h)) = true.
Proof. apply bool_decide_eq_true. rewrite lookup_insert_eq. by eexists. Qed.

(** X3.  [createFramebuffer] is all or nothing for its caller, not for
    the context.  When the three objects are granted the object
    returned holds them, renderbuffer and texture have storage of the
    size asked for, and all three binding points are unbound again.
    When any of them is refused the object returned holds three
    [null]s and only the three creation calls were made: the objects
    that were granted stay in the context, and the caller has no handle
    to delete them with. *)
Theorem createFramebuffer_all_or_nothing
    (width height : Js.number) (s : state) :
  let n := next_handle s in
  let granted :=
    can_alloc (drv s) n && can_alloc (drv s) (S n)
    && can_alloc (drv s) (S (S n)) in
  exists o s',
    createFramebuffer width height s = (Returns o, s')
    /\ if granted then
         o = {| framebuffer := Object n; renderbuffer := Object (S n);
                texture := Object (S (S n)) |}
         /\ n ∈ framebuffers s'
         /\ renderbuffers s' !! (S n) = Some (Some (width, height))
         /\ textures s' !! (S (S n)) = Some (Some (width, height))
         /\ bound_framebuffer s' = None
         /\ bound_renderbuffer s' = None
         /\ bound_texture s' = None
       else
         o = {| framebuffer := Null; renderbuffer := Null; texture := Null |}
         /\ log s'
            = log s ++ [CreateFramebuffer; CreateRenderbuffer; CreateTexture]
         /\ framebuffers s'
            = (if can_alloc (drv s) n
               then {[n]} ∪ framebuffers s else framebuffers s)
         /\ renderbuffers s'
            = (if can_alloc (drv s) (S n)
               then <[S n := None]> (renderbuffers s) else renderbuffers s)
         /\ textures s'
            = (if can_alloc (drv s) (S (S n))
               then <[S (S n) := None]> (textures s) else textures s).
Proof.
  cbv zeta.
  unfold createFramebuffer, gl.createFramebuffer, gl.createRenderbuffer,
    gl.createTexture, gl.alloc, gl.bindFramebuffer, gl.bindRenderbuffer,
    gl.bindTexture, gl.renderbufferStorage, gl.texImage2D, gl.texParameteri,
    gl.framebufferRenderbuffer, gl.framebufferTexture2D,
    gl.valid_framebuffer, gl.valid_renderbuffer, gl.valid_texture,
    bind, modify, ret.
  cbv beta iota. state_simpl.
  destruct (can_alloc (drv s) (next_handle s)) eqn:H1;
    cbv beta iota; state_simpl;
    destruct (can_alloc (drv s) (S (next_handle s))) eqn:H2;
    cbv beta iota; state_simpl;
    destruct (can_alloc (drv s) (S (S (next_handle s)))) eqn:H3;
    cbv beta iota; state_simpl.
  2-8: eexists _, _; (split; [reflexivity|]); state_simpl;
       rewrite <- ?app_assoc; by repeat split.
  rewrite framebuffer_present. cbv beta iota. state_simpl.
  rewrite object_present. cbv beta iota. state_simpl.
  rewrite object_present. cbv beta iota. state_simpl.
  eexists _, _; split; [reflexivity|]. state_simpl.
  repeat split.
  - apply elem_of_union_l. by apply elem_of_singleton.
  - unfold handle. by rewrite lookup_insert_eq.
  - unfold handle. by rewrite lookup_insert_eq.
Qed.

Lemma createFramebuffer_granted (width height : Js.number) (s : state) :
  can_alloc (drv s) (next_handle s) = true ->
  can_alloc (drv s) (S (next_handle s)) = true ->
  can_alloc (drv s) (S (S (next_handle s))) = true ->
  exists s',
    createFramebuffer width height s
    = (Returns {| framebuffer := Object (next_handle s);
                  renderbuffer := Object (S (next_handle s));
                  texture := Object (S (S (next_handle s))) |}, s')
    /\ framebuffers s' = {[next_handle s]} ∪ framebuffers s
    /\ renderbuffers s'
       = <[S (next_handle s) := Some (width, height)]>
           (<[S (next_handle s) := None]> (renderbuffers s))
    /\ textures s'
       = <[S (S (next_handle s)) := Some (width, height)]>
           (<[S (S (next_handle s)) := None]> (textures s))
    /\ bound_framebuffer s' = None
    /\ bound_renderbuffer s' = None
    /\ bound_texture s' = None.
Proof.
  intros H1 H2 H3.
  unfold createFramebuffer, gl.createFramebuffer, gl.createRenderbuffer,
    gl.createTexture, gl.alloc, gl.bindFramebuffer, gl.bindRenderbuffer,
    gl.bindTexture, gl.renderbufferStorage, gl.texImage2D, gl.texParameteri,
    gl.framebufferRenderbuffer, gl.framebufferTexture2D,
    gl.valid_framebuffer, gl.valid_renderbuffer, gl.valid_texture,
    bind, modify, ret.
  cbv beta iota. state_simpl. rewrite H1.
  cbv beta iota. state_simpl. rewrite H2.
  cbv beta iota. state_simpl. rewrite H3.
  cbv beta iota. state_simpl.
  rewrite framebuffer_present. cbv beta iota. state_simpl.
  rewrite object_present. cbv beta iota. state_simpl.
  rewrite object_present. cbv beta iota. state_simpl.
  eexists; split; [reflexivity|]. state_simpl. by repeat split.
Qed.

(** X4.  A render target that is created and then released leaves
    nothing behind: with the three object names unused before and the
    three objects granted, [deleteFramebuffer] on the object
    [createFramebuffer] returned clears its three properties and the
    context holds the framebuffers, renderbuffers and textures it held
    before, with nothing bound. *)
Theorem createFramebuffer_then_deleteFramebuffer
    (width height : Js.number) (s : state) :
  fresh_names s ->
  can_alloc (drv s) (next_handle s) = true ->
  can_alloc (drv s) (S (next_handle s)) = true ->
  can_alloc (drv s) (S (S (next_handle s))) = true ->
  exists o s1 s2,
    createFramebuffer width height s = (Returns o, s1)
    /\ deleteFramebuffer (Some o) s1
       = (Returns (Some {| framebuffer := Null; renderbuffer := Null;
                           texture := Null |}), s2)
    /\ framebuffers s2 = framebuffers s
    /\ renderbuffers s2 = renderbuffers s
    /\ textures s2 = textures s
    /\ bound_framebuffer s2 = None
    /\ bound_renderbuffer s2 = None
    /\ bound_texture s2 = None.
Proof.
  intros (Hf & Hr & Ht) H1 H2 H3.
  destruct (createFramebuffer_granted width height s H1 H2 H3)
    as (s1 & Hc & Hfs & Hrs & Hts & Hbf & Hbr & Hbt).
  eexists _, s1, _. split; [exact Hc|].
  unfold deleteFramebuffer, and_then, hasOwnProperty, slot_value,
    gl.isFramebuffer, gl.isRenderbuffer, gl.isTexture,
    gl.bindFramebuffer, gl.bindRenderbuffer, gl.bindTexture,
    gl.deleteFramebuffer, gl.deleteRenderbuffer, gl.deleteTexture,
    gl.valid_framebuffer, gl.valid_renderbuffer, gl.valid_texture,
    set_framebuffer, set_renderbuffer, set_texture,
    bind, modify, ret.
  cbv beta iota.
  cbn [framebuffer renderbuffer texture]. state_simpl.
  rewrite Hfs, framebuffer_present. cbv beta iota.
  cbn [framebuffer renderbuffer texture]. state_simpl.
  rewrite Hrs, object_present. cbv beta iota.
  cbn [framebuffer renderbuffer texture]. state_simpl.
  rewrite Hts, object_present. cbv beta iota.
  cbn [framebuffer renderbuffer texture]. state_simpl.
  split; [reflexivity|]. state_simpl.
  cbn [gl.unbind_if].
  repeat split.
  - rewrite Hfs. apply set_eq. intros x. split.
    + intros [[Hx%elem_of_singleton|Hx]%elem_of_union Hn]%elem_of_difference;
        [|done].
      subst. exfalso. apply Hn. by apply elem_of_singleton.
    + intros Hx. apply elem_of_difference. split; [by apply elem_of_union_r|].
      intros Hs%elem_of_singleton. by subst.
  - rewrite Hrs. unfold handle, storage in *.
    rewrite !delete_insert_eq. by apply delete_id.
  - rewrite Hts. unfold handle, storage in *.
    rewrite !delete_insert_eq. by apply delete_id.
Qed.

(** X5.  The three buffer creators make the same four calls when the
    buffer is granted (create, bind, upload with their own array type,
    unbind) and return the new buffer.  When it is refused they make
    the one call [createBuffer]; [createVbo] and [createIbo] then
    return [null], while [createIboInt] (with the capability present)
    throws. *)
Theorem buffer_creators_upload_and_unbind (data : list Js.number) (s : state) :
  let n := next_handle s in
  let granted := can_alloc (drv s) n in
  (exists s',
     createVbo data s = (Returns (if granted then Some n else None), s')
     /\ log s'
        = log s ++ (if granted
                    then upload_trace ARRAY_BUFFER Float32Array n data
                    else [CreateBuffer]))
  /\ (exists s',
        createIbo data s = (Returns (if granted then Some n else None), s')
        /\ log s'
           = log s ++ (if granted
                       then upload_trace ELEMENT_ARRAY_BUFFER Int16Array n data
                       else [CreateBuffer]))
  /\ (forall ext,
        lacks_elementIndexUint ext = false ->
        exists s',
          createIboInt ext data s
          = (if granted then Returns n
             else Throws (Js.Error "Failed to create buffer"), s')
          /\ log s'
             = log s ++ (if granted
                         then upload_trace ELEMENT_ARRAY_BUFFER Uint32Array
                                n data
                         else [CreateBuffer])).
Proof.
  cbv zeta.
  unfold createVbo, createIbo, createIboInt, gl.createBuffer, gl.alloc,
    gl.bindBuffer, gl.bufferData, upload_trace, bind, modify, ret, throw.
  split; [|split; [|intros ext ->]];
    destruct (can_alloc (drv s) (next_handle s));
    cbv beta iota; state_simpl;
    (eexists; split; [reflexivity|]); state_simpl;
    by rewrite <- ?app_assoc.
Qed.

Lemma buffer_creators_upload_and_unbind_witness :
  lacks_elementIndexUint
    (Some {| elementIndexUint := Some tt; textureFloat := None;
             textureHalfFloat := None |}) = false
  /\ (exists s',
        createIboInt
          (Some {| elementIndexUint := Some tt; textureFloat := None;
                   textureHalfFloat := None |})
          [0%Q; 1%Q; 2%Q] (new_context exhausted)
        = (Throws (Js.Error "Failed to create buffer"), s')
        /\ log s' = [CreateBuffer]).
Proof.
  split; [reflexivity|].
  apply (proj2 (proj2 (buffer_creators_upload_and_unbind
                         [0%Q; 1%Q; 2%Q] (new_context exhausted)))).
  reflexivity.
Defined.

(** X6.  [createFramebufferFloat] checks the capabilities before it
    touches the context.  Without a capabilities record, or with
    neither float extension, it throws.  On a mobile device or an iPad
    it also throws when only the full-float extension is there: the
    half-float one is required.  In every other case it goes on to
    create a framebuffer and a texture, and the object it returns has
    no renderbuffer property. *)
Theorem createFramebufferFloat_capabilities
    (isMobile isIpad : bool) (ext : option WebGLExtensions)
    (width height : Js.number) (s : state) :
  (lacks_float_texture ext = true ->
   createFramebufferFloat isMobile isIpad ext width height s
   = (Throws (Js.Error "float texture not supported"), s))
  /\ (forall e,
        ext = Some e ->
        isMobile || isIpad = true ->
        textureFloat e = Some tt ->
        textureHalfFloat e = None ->
        createFramebufferFloat isMobile isIpad ext width height s
        = (Throws (Js.Error "textureHalfFloat is not supported"), s))
  /\ (forall e,
        ext = Some e ->
        lacks_float_texture ext = false ->
        (isMobile || isIpad = true -> textureHalfFloat e <> None) ->
        exists o s' rest,
          createFramebufferFloat isMobile isIpad ext width height s
          = (Returns o, s')
          /\ renderbuffer o = Absent
          /\ log s' = log s ++ CreateFramebuffer :: CreateTexture :: rest).
Proof.
  split; [|split].
  - unfold createFramebufferFloat. destruct ext as [e|]; [|done].
    by intros ->.
  - intros e -> Hm Hf Hh. unfold createFramebufferFloat, lacks_float_texture.
    rewrite Hf. unfold bind, float_texel_type. by rewrite Hm, Hh.
  - intros e -> Hl Hm. unfold createFramebufferFloat. rewrite Hl.
    assert (Ht : exists flg, float_texel_type isMobile isIpad e s
                             = (Returns flg, s)).
    { unfold float_texel_type. unfold lacks_float_texture in Hl.
      destruct (isMobile || isIpad).
      - destruct (textureHalfFloat e); [by eexists|]. by destruct Hm.
      - destruct (textureFloat e); [by eexists|].
        destruct (textureHalfFloat e); [by eexists|done]. }
    destruct Ht as [flg Ht]. unfold bind at 1. rewrite Ht.
    unfold gl.createFramebuffer, gl.createTexture, gl.alloc,
      gl.bindFramebuffer, gl.bindTexture, gl.texImage2D, gl.texParameteri,
      gl.framebufferTexture2D, gl.valid_framebuffer, gl.valid_texture,
      bind, modify, ret.
    cbv beta iota. state_simpl.
    destruct (can_alloc (drv s) (next_handle s));
      cbv beta iota; state_simpl;
      destruct (can_alloc (drv s) (S (next_handle s)));
      cbv beta iota; state_simpl.
    1: rewrite framebuffer_present; cbv beta iota; state_simpl;
       rewrite object_present; cbv beta iota; state_simpl.
    all: eexists _, _, _; (split; [reflexivity|]); (split; [reflexivity|]);
      state_simpl; rewrite <- ?app_assoc; cbn [app]; reflexivity.
Qed.

Lemma createFramebuffer_then_deleteFramebuffer_witness :
  fresh_names (new_context obliging)
  /\ exists o s1 s2,
       createFramebuffer 4%Q 4%Q (new_context obliging) = (Returns o, s1)
       /\ deleteFramebuffer (Some o) s1
          = (Returns (Some {| framebuffer := Null; renderbuffer := Null;
                              texture := Null |}), s2)
       /\ framebuffers s2 = ∅
       /\ renderbuffers s2 = ∅
       /\ textures s2 = ∅.
Proof.
  assert (Hfresh : fresh_names (new_context obliging)).
  { repeat split; try reflexivity. apply not_elem_of_empty. }
  split; [exact Hfresh|].
  destruct (createFramebuffer_then_deleteFramebuffer 4%Q 4%Q
              (new_context obliging) Hfresh eq_refl eq_refl eq_refl)
    as (o & s1 & s2 & Hc & Hd & Hf & Hr & Ht & _).
  exists o, s1, s2. by repeat split.
Defined.

Lemma createFramebufferFloat_capabilities_witness :
  let full_only := {| elementIndexUint := None; textureFloat := Some tt;
                      textureHalfFloat := None |} in
  (lacks_float_texture None = true
   /\ createFramebufferFloat false false None 4%Q 4%Q (new_context obliging)
      = (Throws (Js.Error "float texture not supported"),
         new_context obliging))
  /\ (true || false = true
      /\ createFramebufferFloat true false (Some full_only) 4%Q 4%Q
           (new_context obliging)
         = (Throws (Js.Error "textureHalfFloat is not supported"),
            new_context obliging))
  /\ (lacks_float_texture (Some full_only) = false
      /\ exists o s' rest,
           createFramebufferFloat false false (Some full_only) 4%Q 4%Q
             (new_context obliging) = (Returns o, s')
           /\ renderbuffer o = Absent
           /\ log s' = CreateFramebuffer :: CreateTexture :: rest).
Proof.
  cbv zeta. split; [|split].
  - split; [reflexivity|].
    apply (createFramebufferFloat_capabilities false false None 4%Q 4%Q
             (new_context obliging)).
    reflexivity.
  - split; [reflexivity|].
    eapply (proj1 (proj2 (createFramebufferFloat_capabilities true false
                            (Some _) 4%Q 4%Q (new_context obliging))));
      reflexivity.
  - split; [reflexivity|].
    eapply (proj2 (proj2 (createFramebufferFloat_capabilities false false
                            (Some _) 4%Q 4%Q (new_context obliging)))).
    + reflexivity.
    + reflexivity.
    + discriminate.
Defined.


End WebGLUtilityFacts.

(* ================================================================== *)
(** * Traces of computations *)
(* ================================================================== *)

Module TraceFacts.
Import GL Spec.

Lemma appends_ret {A} (a : A) : appends (ret a).
Proof. intros s. exists []. cbn. by rewrite app_nil_r. Qed.

Lemma appends_throw {A} e : appends (@throw A e).
Proof. intros s. exists []. cbn. by rewrite app_nil_r. Qed.

Lemma appends_bind {A B} (m : M A) (k : A -> M B) :
  appends m -> (forall a, appends (k a)) -> appends (bind m k).
Proof.
  intros Hm Hk s. unfold bind.
  destruct (Hm s) as [cs Hcs]. destruct (m s) as [[a|e] s1]; cbn in *.
  - destruct (Hk a s1) as [cs' Hcs']. exists (cs ++ cs').
    rewrite Hcs', Hcs. by rewrite app_assoc.
  - by exists cs.
Qed.

Lemma appends_try_catch {A} (m : M A) (h : Js.exn -> M A) :
  appends m -> (forall e, appends (h e)) -> appends (try_catch m h).
Proof.
  intros Hm Hk s. unfold try_catch.
  destruct (Hm s) as [cs Hcs]. destruct (m s) as [[a|e] s1]; cbn in *.
  - by exists cs.
  - destruct (Hk e s1) as [cs' Hcs']. exists (cs ++ cs').
    rewrite Hcs', Hcs. by rewrite app_assoc.
Qed.

Lemma appends_gets {A} (f : state -> A) : appends (gets f).
Proof. intros s. exists []. cbn. by rewrite app_nil_r. Qed.

(** A state change that records one call and otherwise keeps the
    trace. *)
Lemma appends_record (c : call) (f : state -> state) :
  (forall s, log (f s) = log s) ->
  appends (modify (fun s => record c (f s))).
Proof. intros Hf s. exists [c]. cbn. by rewrite Hf. Qed.

Lemma appends_silent (f : state -> state) :
  (forall s, log (f s) = log s) -> appends (modify f).
Proof. intros Hf s. exists []. cbn. by rewrite Hf, app_nil_r. Qed.

Lemma appends_query {A} (c : call) (f : state -> A) :
  appends (fun s => (Returns (f s), record c s)).
Proof. intros s. by exists [c]. Qed.

Lemma appends_map_each {A B} (f : A -> M B) xs :
  (forall x, appends (f x)) -> appends (map_each f xs).
Proof.
  intros Hf. induction xs as [|x xs IH]; cbn.
  - apply appends_ret.
  - apply appends_bind; [apply Hf|]. intros y.
    apply appends_bind; [apply IH|]. intros ys. apply appends_ret.
Qed.

Lemma appends_for_each {A} (f : A -> nat -> M unit) xs i :
  (forall x j, appends (f x j)) -> appends (for_each f xs i).
Proof.
  intros Hf. revert i. induction xs as [|x xs IH]; intros i; cbn.
  - apply appends_ret.
  - apply appends_bind; [apply Hf|]. intros _. apply IH.
Qed.

Lemma appends_alloc c : appends (gl.alloc c).
Proof.
  intros s. exists [c]. unfold gl.alloc.
  by destruct (can_alloc (drv s) (next_handle s)).
Qed.

Ltac log_kept :=
  let s := fresh "s" in
  intros s; cbn;
  repeat (match goal with
          | |- context [match ?x with _ => _ end] => destruct x; cbn
          end);
  reflexivity.

Ltac appends_step :=
  lazymatch goal with
  | |- appends (ret _) => apply appends_ret
  | |- appends (throw _) => apply appends_throw
  | |- appends (gets _) => apply appends_gets
  | |- appends (bind _ _) => apply appends_bind; [|intros ?]
  | |- appends (try_catch _ _) => apply appends_try_catch; [|intros ?]
  | |- appends (map_each _ _) => apply appends_map_each; intros ?
  | |- appends (for_each _ _ _) => apply appends_for_each; intros ? ?
  | |- appends (gl.alloc _) => apply appends_alloc
  | |- appends (modify (fun s => record _ _)) =>
      apply appends_record; log_kept
  | |- appends (modify (record _)) =>
      apply (appends_record _ (fun s => s)); log_kept
  | |- appends (modify _) => apply appends_silent; log_kept
  | |- appends (fun s => (Returns _, record _ s)) => apply appends_query
  | |- appends (match ?x with _ => _ end) => destruct x
  end.

Ltac appends_gl :=
  unfold gl.createShader, gl.shaderSource, gl.compileShader,
    gl.getShaderParameter, gl.getShaderInfoLog, gl.createProgram,
    gl.attachShader, gl.transformFeedbackVaryings, gl.linkProgram,
    gl.getProgramParameter, gl.getProgramInfoLog, gl.useProgram,
    gl.getAttribLocation, gl.getUniformLocation, gl.createBuffer,
    gl.bindBuffer_value, gl.bindBuffer, gl.bufferData,
    gl.enableVertexAttribArray, gl.vertexAttribPointer,
    gl.bindFramebuffer, gl.viewport, gl.clear, gl.drawArrays,
    gl.alert, gl.console_warn, gl.console_error;
  repeat appends_step.

Lemma appends_createShader source t :
  appends (WebGLUtility.createShader source t).
Proof. unfold WebGLUtility.createShader. appends_gl. Qed.

Lemma appends_createProgram vs fs :
  appends (WebGLUtility.createProgram vs fs).
Proof. unfold WebGLUtility.createProgram. appends_gl. Qed.

Lemma appends_createTransformFeedbackProgram vs fs v :
  appends (WebGLUtility.createTransformFeedbackProgram vs fs v).
Proof. unfold WebGLUtility.createTransformFeedbackProgram. appends_gl. Qed.

Lemma returns_bind {A B} (m : M A) (k : A -> M B) :
  returns m -> (forall a, returns (k a)) -> returns (bind m k).
Proof.
  intros Hm Hk s. unfold bind. destruct (Hm s) as (a & s1 & ->). apply Hk.
Qed.

Lemma returns_ret {A} (a : A) : returns (ret a).
Proof. intros s. by eexists _, _. Qed.

Lemma returns_map_each {A B} (f : A -> M B) xs :
  (forall x, returns (f x)) -> returns (map_each f xs).
Proof.
  intros Hf. induction xs as [|x xs IH]; cbn.
  - apply returns_ret.
  - apply returns_bind; [apply Hf|]. intros y.
    apply returns_bind; [apply IH|]. intros ys. apply returns_ret.
Qed.

Lemma starts_with_bind {A B} c (m : M A) (k : A -> M B) :
  starts_with c m -> (forall a, appends (k a)) -> starts_with c (bind m k).
Proof.
  intros Hm Hk s. unfold bind.
  destruct (Hm s) as [cs Hcs]. destruct (m s) as [[a|e] s1]; cbn in *.
  - destruct (Hk a s1) as [cs' Hcs']. exists (cs ++ cs').
    rewrite Hcs', Hcs. by rewrite <- app_assoc.
  - by exists cs.
Qed.

Lemma starts_with_alloc c : starts_with c (gl.alloc c).
Proof.
  intros s. exists []. unfold gl.alloc.
  by destruct (can_alloc (drv s) (next_handle s)).
Qed.

End TraceFacts.

(* ================================================================== *)
(** * Properties of [ShaderProgram] *)
(* ================================================================== *)

Module ShaderProgramFacts.
Import GL Spec TraceFacts ShaderProgram.

Lemma appends_build options u t : appends (build options u t).
Proof.
  unfold build, resolve_attribute, resolve_uniform,
    gl.getAttribLocation, gl.getUniformLocation, gl.console_warn.
  repeat lazymatch goal with
         | |- appends (WebGLUtility.createShader _ _) =>
             apply appends_createShader
         | |- appends (WebGLUtility.createProgram _ _) =>
             apply appends_createProgram
         | |- appends (WebGLUtility.createTransformFeedbackProgram _ _ _) =>
             apply appends_createTransformFeedbackProgram
         | _ => appends_step
         end.
Qed.

Lemma returns_resolve_attribute p name : returns (resolve_attribute p name).
Proof.
  intros s. unfold resolve_attribute, gl.getAttribLocation, bind. cbn.
  destruct (_ <? 0)%Z; by eexists _, _.
Qed.

Lemma returns_resolve_uniform p name : returns (resolve_uniform p name).
Proof.
  intros s. unfold resolve_uniform, gl.getUniformLocation, bind. cbn.
  destruct (uniform_location _ _ _); by eexists _, _.
Qed.


Lemma build_starts_with_createShader options u t :
  starts_with (CreateShader VERTEX_SHADER) (build options u t).
Proof.
  unfold build.
  apply starts_with_bind.
  - unfold WebGLUtility.createShader. apply starts_with_bind.
    + unfold gl.createShader. apply starts_with_bind.
      * apply starts_with_alloc.
      * intros a. appends_gl.
    + intros a. appends_gl.
  - intros a. fold (build options u t).
    unfold resolve_attribute, resolve_uniform,
      gl.getAttribLocation, gl.getUniformLocation, gl.console_warn.
    repeat lazymatch goal with
         | |- appends (WebGLUtility.createShader _ _) =>
             apply appends_createShader
         | |- appends (WebGLUtility.createProgram _ _) =>
             apply appends_createProgram
         | |- appends (WebGLUtility.createTransformFeedbackProgram _ _ _) =>
             apply appends_createTransformFeedbackProgram
         | _ => appends_step
         end.
Qed.

Lemma createShader_outcome source t s :
  let n := next_handle s in
  let ok := can_alloc (drv s) n && compiles (drv s) t source in
  exists s',
    WebGLUtility.createShader source t s
    = (Returns (if ok then Some n else None), s')
    /\ next_handle s' = S n
    /\ drv s' = drv s
    /\ (ok = true ->
        shaders s' !! n
        = Some {| sh_type := t; sh_source := source; sh_compiled := true |})
    /\ (forall h, h <> n -> shaders s' !! h = shaders s !! h).
Proof.
  cbn zeta.
  unfold WebGLUtility.createShader, gl.createShader, gl.alloc, bind. cbn.
  destruct (can_alloc (drv s) (next_handle s)) eqn:Ha; cbn.
  - unfold handle in *.
    rewrite !lookup_alter_eq, lookup_insert_eq. cbn.
    destruct (compiles (drv s) t source) eqn:Hc; cbn;
      (eexists; split; [reflexivity|]); cbn; repeat split; try done.
    + unfold handle in *. by rewrite !lookup_alter_eq, lookup_insert_eq; cbn; rewrite Hc.
    + intros h Hh. unfold handle in *.
      by rewrite !lookup_alter_ne, lookup_insert_ne.
    + intros h Hh. unfold handle in *.
      by rewrite !lookup_alter_ne, lookup_insert_ne.
  - eexists; split; [reflexivity|]. cbn. repeat split; done.
Qed.

Lemma createProgram_outcome vs fs t1 t2 a b s :
  shaders s !! vs
  = Some {| sh_type := t1; sh_source := a; sh_compiled := true |} ->
  shaders s !! fs
  = Some {| sh_type := t2; sh_source := b; sh_compiled := true |} ->
  let n := next_handle s in
  let ok := can_alloc (drv s) n && links (drv s) [a; b] None in
  exists s',
    WebGLUtility.createProgram vs fs s
    = (Returns (if ok then Some n else None), s').
Proof.
  intros Hvs Hfs. cbn zeta.
  unfold WebGLUtility.createProgram, gl.createProgram, gl.alloc, bind. cbn.
  destruct (can_alloc (drv s) (next_handle s)) eqn:Ha; cbn.
  - unfold handle in *.
    rewrite !lookup_alter_eq, lookup_insert_eq. cbn.
    unfold gl.link_status. cbn. unfold handle in *. rewrite Hvs, Hfs. cbn.
    destruct (links (drv s) [a; b] None); cbn; by eexists.
  - by eexists.
Qed.

Lemma lookup_altered {V} (m : gmap nat V) n (f1 f2 f3 f4 : V -> V) o :
  alter f4 n (alter f3 n (alter f2 n (alter f1 n (<[n:=o]> m)))) !! n
  = Some (f4 (f3 (f2 (f1 o)))).
Proof. by rewrite !lookup_alter_eq, lookup_insert_eq. Qed.

Lemma createTransformFeedbackProgram_outcome vs fs t1 t2 a b varyings s :
  shaders s !! vs
  = Some {| sh_type := t1; sh_source := a; sh_compiled := true |} ->
  shaders s !! fs
  = Some {| sh_type := t2; sh_source := b; sh_compiled := true |} ->
  let n := next_handle s in
  let ok := can_alloc (drv s) n && links (drv s) [a; b] (Some varyings) in
  exists s',
    WebGLUtility.createTransformFeedbackProgram vs fs varyings s
    = (Returns (if ok then Some n else None), s').
Proof.
  intros Hvs Hfs. cbn zeta.
  unfold WebGLUtility.createTransformFeedbackProgram, gl.createProgram,
    gl.alloc, bind. cbn.
  destruct (can_alloc (drv s) (next_handle s)) eqn:Ha; cbn.
  - unfold handle in *. rewrite lookup_altered.
    unfold gl.link_status. cbn. unfold handle in *. rewrite Hvs, Hfs. cbn.
    destruct (links (drv s) [a; b] (Some varyings)); cbn; by eexists.
  - by eexists.
Qed.

Lemma returns_locations options u p :
  returns
    (let* attributeLocation :=
       map_each (resolve_attribute p)
                (ShaderProgramOptions.attribute options) in
     let* uniformLocation :=
       (match u with
        | Some u' => let* l := map_each (resolve_uniform p) u' in
                     ret (Some l)
        | None => ret None
        end) in
     ret (attributeLocation, uniformLocation)).
Proof.
  apply returns_bind; [apply returns_map_each, returns_resolve_attribute|].
  intros al. apply returns_bind; [|intros; apply returns_ret].
  destruct u; [|apply returns_ret].
  apply returns_bind; [apply returns_map_each, returns_resolve_uniform|].
  intros; apply returns_ret.
Qed.

Lemma build_outcome options u t s :
  is_Returns (build options u t s) = platform_accepts s options.
Proof.
  unfold build, platform_accepts. cbn zeta.
  set (vsrc := ShaderProgramOptions.vertexShaderSource options).
  set (fsrc := ShaderProgramOptions.fragmentShaderSource options).
  unfold bind at 1.
  destruct (createShader_outcome vsrc VERTEX_SHADER s)
    as (s1 & -> & Hn1 & Hd1 & Hv1 & Hk1).
  unfold bind at 1.
  destruct (createShader_outcome fsrc FRAGMENT_SHADER s1)
    as (s2 & -> & Hn2 & Hd2 & Hv2 & Hk2).
  rewrite Hd1 in Hd2, Hv2 |- *. rewrite Hn1 in Hn2, Hv2, Hk2 |- *.
  destruct (can_alloc (drv s) (next_handle s)) eqn:Ha1; cbn in *;
    [|by destruct (can_alloc (drv s) (S (next_handle s)) && compiles (drv s) FRAGMENT_SHADER fsrc)].
  destruct (compiles (drv s) VERTEX_SHADER vsrc) eqn:Hc1; cbn in *;
    [|destruct (can_alloc (drv s) (S (next_handle s))); cbn;
      [destruct (compiles (drv s) FRAGMENT_SHADER fsrc)|]; cbn;
      by rewrite ?andb_false_r].
  destruct (can_alloc (drv s) (S (next_handle s))) eqn:Ha2; cbn in *;
    [|done].
  destruct (compiles (drv s) FRAGMENT_SHADER fsrc) eqn:Hc2; cbn in *;
    [|by rewrite ?andb_false_r].
  specialize (Hv1 eq_refl). specialize (Hv2 eq_refl).
  assert (Hvs : shaders s2 !! next_handle s
                = Some {| sh_type := VERTEX_SHADER; sh_source := vsrc;
                          sh_compiled := true |}).
  { rewrite Hk2; [done|]. unfold handle. lia. }
  unfold bind, gets. cbn. rewrite Hd2.
  destruct (is_webgl2 (drv s)
            && non_empty_array
                 (ShaderProgramOptions.transformFeedbackVaryings options))
    eqn:Htf.
  - destruct (ShaderProgramOptions.transformFeedbackVaryings options)
      as [varyings|]; [|by rewrite andb_false_r in Htf]. cbn.
    destruct (createTransformFeedbackProgram_outcome _ _ _ _ _ _ varyings s2 Hvs Hv2)
      as (s3 & ->).
    rewrite Hn2, Hd2.
    destruct (can_alloc (drv s) (S (S (next_handle s)))); cbn; [|done].
    destruct (links (drv s) [vsrc; fsrc] (Some varyings)); cbn; [|done].
    destruct (returns_locations options u (S (S (next_handle s))) s3)
      as ([al ul] & s4 & Hloc).
    unfold bind in Hloc |- *.
    destruct (map_each (resolve_attribute _) _ s3) as [[al'|e] s3']; [|done].
    destruct u as [u'|]; cbn in *; [|done].
    by destruct (map_each (resolve_uniform _) u' s3') as [[?|?] ?].
  - destruct (createProgram_outcome _ _ _ _ _ _ s2 Hvs Hv2) as (s3 & ->).
    rewrite Hn2, Hd2.
    destruct (can_alloc (drv s) (S (S (next_handle s)))); cbn; [|done].
    destruct (links (drv s) [vsrc; fsrc] None); cbn; [|done].
    destruct (returns_locations options u (S (S (next_handle s))) s3)
      as ([al ul] & s4 & Hloc).
    unfold bind in Hloc |- *.
    destruct (map_each (resolve_attribute _) _ s3) as [[al'|e] s3']; [|done].
    destruct u as [u'|]; cbn in *; [|done].
    by destruct (map_each (resolve_uniform _) u' s3') as [[?|?] ?].
Qed.


Lemma validate_paired options s :
  attributes_paired options -> uniforms_paired options ->
  validate options s
  = (Returns (ShaderProgramOptions.uniform options,
              ShaderProgramOptions.type options), s).
Proof.
  unfold attributes_paired, validate. intros Ha Hu.
  rewrite Ha, Nat.eqb_refl. cbn.
  destruct Hu as [[-> ->] | (u & t & -> & -> & Hlen)]; [done|].
  by rewrite Hlen, Nat.eqb_refl.
Qed.

Lemma validate_unpaired options s :
  ~ (attributes_paired options /\ uniforms_paired options) ->
  exists message, validate options s = (Throws (Js.Error message), s).
Proof.
  unfold attributes_paired, uniforms_paired, validate. intros Hn.
  destruct (length (ShaderProgramOptions.attribute options)
            =? length (ShaderProgramOptions.stride options))%nat eqn:Ha; cbn;
    [|by eexists].
  apply Nat.eqb_eq in Ha.
  destruct (ShaderProgramOptions.uniform options) as [u|],
           (ShaderProgramOptions.type options) as [t|]; try by eexists.
  - destruct (length u =? length t)%nat eqn:Hu; cbn; [|by eexists].
    apply Nat.eqb_eq in Hu. exfalso. apply Hn. split; [done|].
    right. by exists u, t.
  - exfalso. apply Hn. split; [done|]. by left.
Qed.

(** C3.  The constructor checks the pairing of its descriptors
    before it touches the context.

    - When the attribute names and the strides are as many, and the
      uniform names and update tags are both absent or both present
      and as many, construction goes on to the shaders: the first call
      on the context is [createShader(VERTEX_SHADER)], and the
      constructor returns a program exactly when the platform grants
      the objects, compiles both sources and links them.
    - Otherwise the constructor throws an [Error] and the context is
      exactly as it was: no call has been made on it. *)
Theorem constructor_checks_descriptors_first
    (options : ShaderProgramOptions.t) (s : state) :
  (attributes_paired options -> uniforms_paired options ->
     constructor options s
     = build options (ShaderProgramOptions.uniform options)
                     (ShaderProgramOptions.type options) s
     /\ (exists rest,
           log (snd (constructor options s))
           = log s ++ CreateShader VERTEX_SHADER :: rest)
     /\ is_Returns (constructor options s) = platform_accepts s options)
  /\ (~ (attributes_paired options /\ uniforms_paired options) ->
      exists message,
        constructor options s = (Throws (Js.Error message), s)).
Proof.
  split.
  - intros Ha Hu.
    assert (Hrun : constructor options s
                   = build options (ShaderProgramOptions.uniform options)
                                   (ShaderProgramOptions.type options) s).
    { unfold constructor, bind. by rewrite validate_paired. }
    rewrite Hrun. split; [done|]. split.
    + apply build_starts_with_createShader.
    + apply build_outcome.
  - intros Hn. destruct (validate_unpaired options s Hn) as [message Hv].
    exists message. unfold constructor, bind. by rewrite Hv.
Qed.

Lemma constructor_checks_descriptors_first_witness :
  (attributes_paired quad_options /\ uniforms_paired quad_options
   /\ is_Returns (constructor quad_options (new_context obliging)) = true)
  /\ (~ (attributes_paired skewed_options /\ uniforms_paired skewed_options)
      /\ exists message,
           constructor skewed_options (new_context obliging)
           = (Throws (Js.Error message), new_context obliging)).
Proof.
  assert (Ha : attributes_paired quad_options) by reflexivity.
  assert (Hu : uniforms_paired quad_options).
  { right. eexists _, _. repeat split; reflexivity. }
  assert (Hn : ~ (attributes_paired skewed_options
                  /\ uniforms_paired skewed_options)).
  { intros [_ [[Hx _] | (u & t & _ & Hx & _)]]; discriminate Hx. }
  split.
  - split; [exact Ha|]. split; [exact Hu|].
    destruct (constructor_checks_descriptors_first
                quad_options (new_context obliging)) as [Hok _].
    destruct (Hok Ha Hu) as (_ & _ & ->). reflexivity.
  - split; [exact Hn|].
    destruct (constructor_checks_descriptors_first
                skewed_options (new_context obliging)) as [_ Hbad].
    exact (Hbad Hn).
Defined.

Lemma dispatch_at this tags locations tag location v index s :
  type this = Some tags ->
  uniformLocation this = Some locations ->
  tags !! index = Some tag ->
  locations !! index = Some location ->
  has_method (drv s) tag = true ->
  dispatch this v index s
  = (Returns tt, record (uniform_call tag location v) s).
Proof.
  intros Ht Hl Htag Hloc Hm.
  unfold dispatch, type_at, location_at, bind, ret, uniform_call.
  rewrite Ht, Hl, Htag, Hloc. cbn.
  destruct (Js.includes "Matrix" tag); unfold gl.invoke; by rewrite Hm.
Qed.

Lemma for_each_dispatch this tags locations :
  type this = Some tags ->
  uniformLocation this = Some locations ->
  forall value index s,
    length (drop index tags) = length value ->
    length (drop index locations) = length value ->
    Forall (fun tag => has_method (drv s) tag = true) tags ->
    for_each (dispatch this) value index s
    = (Returns tt,
       traced (uniform_calls (drop index tags) (drop index locations) value)
              s).
Proof.
  intros Ht Hl value.
  induction value as [|v value IH]; intros index s Hlt Hll Hm; cbn.
  - by destruct (drop index tags), (drop index locations).
  - rewrite length_drop in Hlt. rewrite length_drop in Hll. cbn in Hlt, Hll.
    destruct (lookup_lt_is_Some_2 tags index) as [tag Htag]; [lia|].
    destruct (lookup_lt_is_Some_2 locations index) as [l Hloc]; [lia|].
    rewrite (drop_S _ _ _ Htag), (drop_S _ _ _ Hloc). cbn.
    unfold bind at 1.
    rewrite (dispatch_at this tags locations tag l v index s Ht Hl Htag Hloc).
    + apply IH; rewrite ?length_drop; try lia. exact Hm.
    + rewrite Forall_forall in Hm. apply Hm.
      apply list_elem_of_lookup. by exists index.
Qed.

(** C4.  [setUniform] dispatches all the values or none.

    - With no uniforms declared it returns at once; the context is
      as it was.
    - With uniforms declared and a value list of another length it
      throws an [Error]; the context is as it was, so no value has
      been dispatched.
    - With as many values as uniforms (in a program whose tags and
      locations are parallel to its uniform names, as the constructor
      builds them, and whose tags name methods of the context) it
      returns after making exactly one call per value, in order: the
      method named by the tag of the same index, on the location of
      the same index, with [false] before the value when the tag
      contains ["Matrix"], and the value alone otherwise. *)
Theorem setUniform_all_or_nothing
    (this : t) (value : list Js.value) (s : state) :
  (uniform this = None -> setUniform this value s = (Returns tt, s))
  /\ (forall u,
        uniform this = Some u -> length value <> length u ->
        setUniform this value s
        = (Throws (Js.Error "value is an invalid"), s))
  /\ (forall u tags locations,
        uniform this = Some u ->
        type this = Some tags ->
        uniformLocation this = Some locations ->
        length tags = length u ->
        length locations = length u ->
        length value = length u ->
        Forall (fun tag => has_method (drv s) tag = true) tags ->
        setUniform this value s
        = (Returns tt, traced (uniform_calls tags locations value) s)).
Proof.
  unfold setUniform. repeat split.
  - by intros ->.
  - intros u -> Hne.
    destruct (length value =? length u)%nat eqn:He; [|done].
    by apply Nat.eqb_eq in He.
  - intros u tags locations -> Ht Hl Hlt Hll Hlv Hm.
    rewrite Hlv, Nat.eqb_refl. cbn.
    rewrite (for_each_dispatch this tags locations Ht Hl value 0 s);
      rewrite ?drop_0; try done; lia.
Qed.

Lemma setUniform_all_or_nothing_witness :
  setUniform bare_program [Js.Num 1%Q] (new_context obliging)
  = (Returns tt, new_context obliging)
  /\ setUniform lit_program [Js.Num 1%Q] (new_context obliging)
     = (Throws (Js.Error "value is an invalid"), new_context obliging)
  /\ setUniform lit_program
       [Js.Num 1%Q; Js.Float32 [1%Q; 0%Q; 0%Q; 1%Q]] (new_context obliging)
     = (Returns tt,
        traced
          [Invoke "uniform1f" [ALocation (Some 4%nat); AValue (Js.Num 1%Q)];
           Invoke "uniformMatrix2fv"
             [ALocation (Some 5%nat); ABool false;
              AValue (Js.Float32 [1%Q; 0%Q; 0%Q; 1%Q])]]
          (new_context obliging)).
Proof.
  split; [|split].
  - apply (proj1 (setUniform_all_or_nothing bare_program [Js.Num 1%Q]
                    (new_context obliging))).
    reflexivity.
  - apply (proj1 (proj2 (setUniform_all_or_nothing lit_program [Js.Num 1%Q]
                           (new_context obliging)))
             ["uTime"; "uTransform"]%string).
    + reflexivity.
    + cbn. lia.
  - apply (proj2 (proj2 (setUniform_all_or_nothing lit_program
                           [Js.Num 1%Q; Js.Float32 [1%Q; 0%Q; 0%Q; 1%Q]]
                           (new_context obliging)))
             ["uTime"; "uTransform"]%string
             ["uniform1f"; "uniformMatrix2fv"]%string
             [Some 4%nat; Some 5%nat]); try reflexivity.
    repeat constructor.
Defined.

Lemma map_each_length {A B} (f : A -> M B) xs :
  forall s ys s', map_each f xs s = (Returns ys, s') -> length ys = length xs.
Proof.
  induction xs as [|x xs IH]; intros s ys s'; cbn.
  - unfold ret. by intros [= <- _].
  - unfold bind. destruct (f x s) as [[y|e] s1]; [|done].
    destruct (map_each f xs s1) as [[ys'|e] s2] eqn:Hm; [|done].
    unfold ret. intros [= <- _]. cbn. f_equal. by eapply IH.
Qed.

(** What a program that was constructed keeps of its options. *)
Lemma constructor_fields options s this s' :
  constructor options s = (Returns this, s') ->
  attribute this = ShaderProgramOptions.attribute options
  /\ stride this = ShaderProgramOptions.stride options
  /\ uniform this = ShaderProgramOptions.uniform options
  /\ type this = ShaderProgramOptions.type options
  /\ length (stride this) = length (attribute this)
  /\ length (attributeLocation this) = length (attribute this)
  /\ match uniform this with
     | None => type this = None /\ uniformLocation this = None
     | Some u =>
         exists tags locations,
           type this = Some tags /\ uniformLocation this = Some locations
           /\ length tags = length u /\ length locations = length u
     end.
Proof.
  unfold constructor, bind at 1.
  destruct (validate options s) as [[[u t]|e] s0] eqn:Hv; [|done].
  assert (Hp : ShaderProgramOptions.uniform options = u
               /\ ShaderProgramOptions.type options = t
               /\ length (ShaderProgramOptions.stride options)
                  = length (ShaderProgramOptions.attribute options)
               /\ match u with
                  | None => t = None
                  | Some u' => exists tags, t = Some tags
                                            /\ length tags = length u'
                  end).
  { revert Hv. unfold validate.
    destruct (length _ =? length _)%nat eqn:Ha; cbn; [|done].
    apply Nat.eqb_eq in Ha.
    destruct (ShaderProgramOptions.uniform options) as [u'|],
             (ShaderProgramOptions.type options) as [t'|]; try done.
    - destruct (length u' =? length t')%nat eqn:Hu; cbn; [|done].
      apply Nat.eqb_eq in Hu. unfold ret. intros [= <- <- _].
      repeat split; try done. by exists t'.
    - unfold ret. by intros [= <- <- _]. }
  destruct Hp as (Hu & Ht & Hs & Hut). cbn [fst snd].
  unfold build, bind.
  destruct (WebGLUtility.createShader _ VERTEX_SHADER s0) as [[[vs|]|?] s1];
    try done.
  2: { by destruct (WebGLUtility.createShader _ FRAGMENT_SHADER s1)
          as [[[?|]|?] ?]. }
  destruct (WebGLUtility.createShader _ FRAGMENT_SHADER s1)
    as [[[fs|]|?] s2]; try done.
  cbn.
  assert (Hrest : forall p s3 that s'',
    (let* attributeLocation :=
       map_each (resolve_attribute p)
                (ShaderProgramOptions.attribute options) in
     let* uniformLocation :=
       (match u with
        | Some u' => let* l := map_each (resolve_uniform p) u' in
                     ret (Some l)
        | None => ret None
        end) in
     ret {| vertexShaderSource :=
              ShaderProgramOptions.vertexShaderSource options;
            fragmentShaderSource :=
              ShaderProgramOptions.fragmentShaderSource options;
            attribute := ShaderProgramOptions.attribute options;
            stride := ShaderProgramOptions.stride options;
            uniform := u;
            type := t;
            transformFeedbackVaryings :=
              ShaderProgramOptions.transformFeedbackVaryings options;
            vertexShader := vs;
            fragmentShader := fs;
            program := p;
            attributeLocation := attributeLocation;
            uniformLocation := uniformLocation |}) s3 = (Returns that, s'') ->
    attribute that = ShaderProgramOptions.attribute options
    /\ stride that = ShaderProgramOptions.stride options
    /\ uniform that = ShaderProgramOptions.uniform options
    /\ type that = ShaderProgramOptions.type options
    /\ length (stride that) = length (attribute that)
    /\ length (attributeLocation that) = length (attribute that)
    /\ match uniform that with
       | None => type that = None /\ uniformLocation that = None
       | Some u =>
           exists tags locations,
             type that = Some tags /\ uniformLocation that = Some locations
             /\ length tags = length u /\ length locations = length u
       end).
  { intros p s3 that s''. unfold bind.
    destruct (map_each (resolve_attribute p) _ s3) as [[al|?] s4] eqn:Hal;
      [|done].
    apply map_each_length in Hal.
    destruct u as [u'|].
    - destruct (map_each (resolve_uniform p) u' s4) as [[ul|?] s5] eqn:Hul;
        [|done].
      apply map_each_length in Hul.
      unfold ret. intros [= <- _]. cbn. repeat split; try done.
      destruct Hut as (tags & -> & Hlen). by exists tags, ul.
    - unfold ret. intros [= <- _]. cbn. by subst t. }
  destruct (is_webgl2 (drv s2) && _).
  - destruct (WebGLUtility.createTransformFeedbackProgram _ _ _ s2)
      as [[[p|]|?] s3]; try done. apply Hrest.
  - destruct (WebGLUtility.createProgram _ _ s2)
      as [[[p|]|?] s3]; try done. apply Hrest.
Qed.

(** ** Binding buffers, and what construction guarantees *)

Lemma traced_app cs cs' s : traced (cs ++ cs') s = traced cs' (traced cs s).
Proof. unfold traced. apply fold_left_app. Qed.

Lemma for_each_bind_buffers this locations strides :
  attributeLocation this = locations ->
  stride this = strides ->
  forall buffers index s,
    index + length buffers <= length locations ->
    index + length buffers <= length strides ->
    for_each (fun v index =>
                gl.bindBuffer_value ARRAY_BUFFER v ;;;
                gl.enableVertexAttribArray
                  (default 0%Z (attributeLocation this !! index)) ;;;
                gl.vertexAttribPointer
                  (default 0%Z (attributeLocation this !! index))
                  (default 0%Q (stride this !! index)))
             (map Buffer buffers) index s
    = (Returns tt,
       traced (attribute_calls buffers (drop index locations)
                               (drop index strides)) s).
Proof.
  intros Hl Hs buffers.
  induction buffers as [|b buffers IH]; intros index s Hll Hls.
  - cbn. by destruct (drop index locations), (drop index strides).
  - cbn [length] in Hll, Hls.
    destruct (lookup_lt_is_Some_2 locations index) as [l Hloc]; [lia|].
    destruct (lookup_lt_is_Some_2 strides index) as [n Hn]; [lia|].
    rewrite (drop_S _ _ _ Hloc), (drop_S _ _ _ Hn).
    cbn [map for_each attribute_calls].
    rewrite traced_app. unfold bind at 1.
    rewrite Hl, Hs, Hloc, Hn.
    unfold gl.bindBuffer_value, gl.bindBuffer, gl.enableVertexAttribArray,
      gl.vertexAttribPointer, bind, modify.
    cbv beta iota. cbn [default].
    rewrite <- Hl, <- Hs.
    rewrite (IH (S index)); [|lia|lia].
    by rewrite Hl, Hs.
Qed.

(** X7.  [setAttribute] binds all the buffers or none.  With a buffer
    list of another length than the attribute names it throws and the
    context is as it was.  With as many buffers as attributes (in a
    program whose locations and strides are as many, as the constructor
    builds them) it makes three calls per buffer, in order (bind,
    enable the location of the same index, point it with the stride of
    the same index), then binds the index buffer if one is given. *)
Theorem setAttribute_all_or_nothing
    (this : t) (vbo : list buffer_value) (ibo : option handle) (s : state) :
  (length vbo <> length (attribute this) ->
   setAttribute this vbo ibo s
   = (Throws (Js.Error "vbo or attribute does not match"), s))
  /\ (forall buffers,
        vbo = map Buffer buffers ->
        length buffers = length (attribute this) ->
        length (attributeLocation this) = length (attribute this) ->
        length (stride this) = length (attribute this) ->
        setAttribute this vbo ibo s
        = (Returns tt,
           traced (attribute_calls buffers (attributeLocation this)
                                   (stride this)
                   ++ index_buffer_call ibo) s)).
Proof.
  unfold setAttribute. split.
  - intros Hne. destruct (length vbo =? _)%nat eqn:He; [|done].
    by apply Nat.eqb_eq in He.
  - intros buffers -> Hb Hl Hs.
    rewrite length_map, Hb, Nat.eqb_refl. cbn [negb].
    unfold bind at 1.
    rewrite (for_each_bind_buffers this _ _ eq_refl eq_refl buffers 0 s);
      [|lia|lia].
    rewrite !drop_0, traced_app.
    destruct ibo; reflexivity.
Qed.

Lemma setAttribute_all_or_nothing_witness :
  setAttribute lit_program [] None (new_context obliging)
  = (Throws (Js.Error "vbo or attribute does not match"),
     new_context obliging)
  /\ setAttribute lit_program [Buffer 7%nat] (Some 8%nat)
       (new_context obliging)
     = (Returns tt,
        traced [BindBuffer ARRAY_BUFFER (Some 7%nat);
                EnableVertexAttribArray 0%Z; VertexAttribPointer 0%Z 3%Q;
                BindBuffer ELEMENT_ARRAY_BUFFER (Some 8%nat)]
               (new_context obliging)).
Proof.
  split.
  - apply (proj1 (setAttribute_all_or_nothing lit_program [] None
                    (new_context obliging))).
    discriminate.
  - apply (proj2 (setAttribute_all_or_nothing lit_program [Buffer 7%nat]
                    (Some 8%nat) (new_context obliging)) [7%nat]);
      reflexivity.
Defined.

Lemma for_each_dispatch_upto this tags locations :
  type this = Some tags ->
  uniformLocation this = Some locations ->
  forall value index s,
    index + length value <= length tags ->
    index + length value <= length locations ->
    (forall j tag,
       index <= j < index + length value ->
       tags !! j = Some tag -> has_method (drv s) tag = true) ->
    for_each (dispatch this) value index s
    = (Returns tt,
       traced (uniform_calls (drop index tags) (drop index locations) value)
              s).
Proof.
  intros Ht Hl value.
  induction value as [|v value IH]; intros index s Hlt Hll Hm.
  - cbn. by destruct (drop index tags), (drop index locations).
  - cbn [length] in Hlt, Hll, Hm.
    destruct (lookup_lt_is_Some_2 tags index) as [tag Htag]; [lia|].
    destruct (lookup_lt_is_Some_2 locations index) as [l Hloc]; [lia|].
    rewrite (drop_S _ _ _ Htag), (drop_S _ _ _ Hloc).
    cbn [for_each uniform_calls]. unfold bind at 1.
    rewrite (dispatch_at this tags locations tag l v index s Ht Hl Htag Hloc).
    + apply IH; [lia|lia|].
      intros j tag' Hj Hjt. apply (Hm j tag'); [lia|done].
    + apply (Hm index tag); [lia|done].
Qed.

Lemma for_each_app {A} (f : A -> nat -> M unit) xs ys index s :
  for_each f (xs ++ ys) index s
  = match for_each f xs index s with
    | (Returns _, s') => for_each f ys (index + length xs) s'
    | (Throws e, s') => (Throws e, s')
    end.
Proof.
  revert index s. induction xs as [|x xs IH]; intros index s.
  - cbn. by rewrite Nat.add_0_r.
  - cbn [app for_each length]. unfold bind.
    destruct (f x index s) as [[[]|e] s1]; [|done].
    rewrite IH. by replace (S index + length xs) with (index + S (length xs))
      by lia.
Qed.

Lemma traced_drv cs s : drv (traced cs s) = drv s.
Proof.
  revert s. induction cs as [|c cs IH]; intros s; [done|].
  cbn. by rewrite IH.
Qed.

(** X8.  A tag that is not the name of a method of the context stops
    [setUniform] half way: the values before it have been dispatched,
    then the call throws a [TypeError]. *)
Theorem setUniform_stops_at_unknown_tag
    (this : t) (value : list Js.value) (s : state)
    (u tags : list string) (locations : list (option handle))
    (i : nat) (bad : string) :
  uniform this = Some u ->
  type this = Some tags ->
  uniformLocation this = Some locations ->
  length tags = length u ->
  length locations = length u ->
  length value = length u ->
  tags !! i = Some bad ->
  has_method (drv s) bad = false ->
  (forall j tag, j < i -> tags !! j = Some tag ->
                 has_method (drv s) tag = true) ->
  setUniform this value s
  = (Throws (Js.TypeError "gl[type] is not a function"),
     traced (uniform_calls tags locations (take i value)) s).
Proof.
  intros Hu Ht Hl Hlt Hll Hlv Hbad Hno Hok.
  assert (Hi : i < length tags) by (by eapply lookup_lt_Some).
  unfold setUniform. rewrite Hu, Hlv, Nat.eqb_refl. cbn [negb].
  rewrite <- (take_drop i value) at 1.
  rewrite for_each_app.
  rewrite (for_each_dispatch_upto this tags locations Ht Hl (take i value) 0 s).
  - rewrite !drop_0, length_take, Nat.add_0_l.
    replace (i `min` length value) with i by lia.
    destruct (lookup_lt_is_Some_2 value i) as [v Hv]; [lia|].
    destruct (lookup_lt_is_Some_2 locations i) as [l Hloc]; [lia|].
    rewrite (drop_S _ _ _ Hv). cbn [for_each]. unfold bind.
    unfold dispatch, type_at, location_at, bind, ret.
    rewrite Ht, Hl, Hbad, Hloc. cbn [mjoin option_join].
    unfold gl.invoke.
    destruct (Js.includes "Matrix" bad); by rewrite traced_drv, Hno.
  - rewrite length_take. lia.
  - rewrite length_take. lia.
  - intros j tag Hj Hjt. rewrite length_take in Hj.
    apply (Hok j tag); [lia|done].
Qed.

Lemma setUniform_stops_at_unknown_tag_witness :
  has_method (drv (new_context obliging)) "vec3" = false
  /\ setUniform mistagged_program
       [Js.Num 1%Q; Js.Float32 [1%Q; 0%Q; 0%Q]] (new_context obliging)
     = (Throws (Js.TypeError "gl[type] is not a function"),
        traced [Invoke "uniform1f"
                  [ALocation (Some 4%nat); AValue (Js.Num 1%Q)]]
               (new_context obliging)).
Proof.
  split; [reflexivity|].
  assert (Hok : forall j tag,
            j < 1 -> ["uniform1f"; "vec3"]%string !! j = Some tag ->
            has_method (drv (new_context obliging)) tag = true).
  { intros [|j] tag Hj; [|lia]. by intros [= <-]. }
  exact (setUniform_stops_at_unknown_tag mistagged_program
           [Js.Num 1%Q; Js.Float32 [1%Q; 0%Q; 0%Q]] (new_context obliging)
           ["uTime"; "uColor"]%string ["uniform1f"; "vec3"]%string
           [Some 4%nat; Some 5%nat] 1 "vec3"
           eq_refl eq_refl eq_refl eq_refl eq_refl eq_refl eq_refl eq_refl
           Hok).
Defined.

(** X9.  A program that was constructed keeps the descriptors of its
    options, and its arrays are parallel: as many strides and
    attribute locations as attribute names; uniform names, tags and
    uniform locations all absent, or all present and as many. *)
Theorem constructed_program_is_parallel
    (options : ShaderProgramOptions.t) (s s' : state) (this : t) :
  constructor options s = (Returns this, s') ->
  attribute this = ShaderProgramOptions.attribute options
  /\ stride this = ShaderProgramOptions.stride options
  /\ uniform this = ShaderProgramOptions.uniform options
  /\ type this = ShaderProgramOptions.type options
  /\ length (stride this) = length (attribute this)
  /\ length (attributeLocation this) = length (attribute this)
  /\ match uniform this with
     | None => type this = None /\ uniformLocation this = None
     | Some u =>
         exists tags locations,
           type this = Some tags /\ uniformLocation this = Some locations
           /\ length tags = length u /\ length locations = length u
     end.
Proof. apply constructor_fields. Qed.

Lemma constructed_program_is_parallel_witness :
  exists this s',
    constructor quad_options (new_context obliging) = (Returns this, s')
    /\ attribute this = ["position"%string]
    /\ length (attributeLocation this) = 1%nat
    /\ uniformLocation this = Some [Some 0%nat].
Proof.
  destruct (constructor quad_options (new_context obliging))
    as [[this|e] s'] eqn:Hc; [|by vm_compute in Hc].
  exists this, s'. split; [reflexivity|].
  destruct (constructed_program_is_parallel _ _ _ _ Hc)
    as (Ha & _ & _ & _ & _ & Hl & _).
  split; [exact Ha|]. split; [by rewrite Hl, Ha|].
  vm_compute in Hc. by injection Hc as <- _.
Defined.


End ShaderProgramFacts.

(* ================================================================== *)
(** * Properties of the clock of [Common] *)
(* ================================================================== *)

Module CommonFacts.
Import Common ClockSpec.
Local Open Scope Q_scope.


Lemma update_time now c :
  time (update now c)
  == time c + ((now - previousTime c) / 1000) * timeScale c.
Proof. reflexivity. Qed.

Lemma updates_timeScale nows c : timeScale (updates nows c) = timeScale c.
Proof.
  revert c. induction nows as [|now nows IH]; intros c; [done|].
  cbn. by rewrite IH.
Qed.

Lemma updates_time nows c :
  time (updates nows c)
  == time c + timeScale c * total (deltas (previousTime c) nows).
Proof.
  revert c. induction nows as [|now nows IH]; intros c; cbn.
  - unfold total; cbn. ring.
  - rewrite IH. cbn. unfold total; cbn. fold (total (deltas now nows)). ring.
Qed.

Lemma last_cons {A} (a : A) l d : List.last (a :: l) d = List.last l a.
Proof.
  revert a d. induction l as [|b l IH]; intros a d; [done|].
  change (List.last (a :: b :: l) d) with (List.last (b :: l) d).
  by rewrite !IH.
Qed.

Lemma updates_previousTime nows c :
  previousTime (updates nows c) = List.last nows (previousTime c).
Proof.
  revert c. induction nows as [|now nows IH]; intros c; [done|].
  change (updates (now :: nows) c) with (updates nows (update now c)).
  rewrite IH. by rewrite last_cons.
Qed.

Lemma total_deltas previous nows :
  total (deltas previous nows) == (List.last nows previous - previous) / 1000.
Proof.
  revert previous. induction nows as [|now nows IH]; intros previous.
  - unfold total; cbn. field.
  - cbn [deltas]. unfold total; cbn [fold_right].
    fold (total (deltas now nows)). rewrite IH.
    rewrite last_cons.
    field.
Qed.

Lemma update_monotone now c :
  0 <= timeScale c -> previousTime c <= now -> time c <= time (update now c).
Proof.
  intros Hs Hn. rewrite update_time.
  assert (0 <= (now - previousTime c) / 1000 * timeScale c); [|lra].
  apply Qmult_le_0_compat; [|done].
  apply Qle_shift_div_l; lra.
Qed.

Lemma clock_run_monotone events :
  forall c, 0 <= timeScale c -> orderly (previousTime c) events ->
            time c <= time (clock_run events c)
            /\ 0 <= timeScale (clock_run events c).
Proof.
  induction events as [|[now|value] events IH]; intros c Hs Ho.
  - split; [apply Qle_refl|done].
  - destruct Ho as [Hn Ho].
    change (clock_run (Frame now :: events) c)
      with (clock_run events (update now c)).
    destruct (IH (update now c)) as [Ht Hs']; [done|done|].
    split; [|done].
    eapply Qle_trans; [apply (update_monotone now c Hs Hn)|exact Ht].
  - destruct Ho as [Hv Ho].
    change (clock_run (Slider value :: events) c)
      with (clock_run events (Gui.on_timeScale_change value c)).
    by apply (IH (Gui.on_timeScale_change value c)).
Qed.

Lemma clock_run_orderly before after :
  forall c, 0 <= timeScale c -> orderly (previousTime c) (before ++ after) ->
            0 <= timeScale (clock_run before c)
            /\ orderly (previousTime (clock_run before c)) after.
Proof.
  induction before as [|[now|value] before IH]; intros c Hs Ho; cbn.
  - done.
  - destruct Ho as [Hn Ho]. by apply (IH (update now c)).
  - destruct Ho as [Hv Ho]. by apply (IH (Gui.on_timeScale_change value c)).
Qed.

(** C2.  The clock accumulates scaled elapsed time.

    - One [update()] that reads the clock at [now] advances [time] by
      the seconds elapsed since the previous reading times
      [timeScale], and leaves [previousTime] at [now].
    - Over a run of calls with readings [nows], at the scale [c] has,
      [time] grows by [timeScale] times the sum of the elapsed
      seconds [d1 + d2 + ...], which is the time elapsed between the
      first and the last reading: by the sum itself at scale 1, by
      nothing at scale 0, by twice the sum at scale 2; and
      [previousTime] ends at the last reading.
    - [time] never decreases along a run of frames and slider
      changes, as long as the scale starts and stays non-negative and
      the readings do not run backwards. *)
Theorem clock_accumulates_scaled_time (nows : list Js.number) (c : t) :
  (forall now,
     time (update now c)
     == time c + ((now - previousTime c) / 1000) * timeScale c
     /\ previousTime (update now c) = now)
  /\ time (updates nows c)
     == time c + timeScale c * total (deltas (previousTime c) nows)
  /\ total (deltas (previousTime c) nows)
     == (List.last nows (previousTime c) - previousTime c) / 1000
  /\ (timeScale c == 1 ->
      time (updates nows c)
      == time c + total (deltas (previousTime c) nows))
  /\ (timeScale c == 0 -> time (updates nows c) == time c)
  /\ (timeScale c == 2 ->
      time (updates nows c)
      == time c + 2 * total (deltas (previousTime c) nows))
  /\ previousTime (updates nows c) = List.last nows (previousTime c)
  /\ (forall before after,
        0 <= timeScale c ->
        orderly (previousTime c) (before ++ after) ->
        time (clock_run before c) <= time (clock_run (before ++ after) c)).
Proof.
  pose proof (updates_time nows c) as Ht.
  repeat split.
  - exact Ht.
  - apply total_deltas.
  - intros Hs. rewrite Ht, Hs. ring.
  - intros Hs. rewrite Ht, Hs. ring.
  - intros Hs. rewrite Ht, Hs. ring.
  - apply updates_previousTime.
  - intros before after Hs Ho.
    destruct (clock_run_orderly before after c Hs Ho) as [Hs' Ho'].
    unfold clock_run at 2. rewrite fold_left_app.
    apply (clock_run_monotone after (clock_run before c) Hs' Ho').
Qed.
Lemma clock_accumulates_scaled_time_witness :
  (timeScale (clock_at 1000 1) == 1
   /\ time (updates [1016; 1033; 1050] (clock_at 1000 1))
      == 0 + total (deltas 1000 [1016; 1033; 1050]))
  /\ (timeScale (clock_at 1000 0) == 0
      /\ time (updates [1016; 1033; 1050] (clock_at 1000 0)) == 0)
  /\ (timeScale (clock_at 1000 2) == 2
      /\ time (updates [1016; 1033; 1050] (clock_at 1000 2))
         == 0 + 2 * total (deltas 1000 [1016; 1033; 1050]))
  /\ (0 <= timeScale (clock_at 1000 1)
      /\ orderly 1000 ([Frame 1016; Slider 2] ++ [Frame 1033])
      /\ time (clock_run [Frame 1016; Slider 2] (clock_at 1000 1))
         <= time (clock_run ([Frame 1016; Slider 2] ++ [Frame 1033])
                            (clock_at 1000 1))).
Proof.
  assert (H0 : (0 <= 1)%Q) by (vm_compute; discriminate).
  assert (Ho : orderly 1000 ([Frame 1016; Slider 2] ++ [Frame 1033])).
  { cbn. repeat split; vm_compute; discriminate. }
  split; [|split; [|split]].
  - split; [reflexivity|].
    apply (clock_accumulates_scaled_time [1016; 1033; 1050] (clock_at 1000 1)).
    reflexivity.
  - split; [reflexivity|].
    apply (clock_accumulates_scaled_time [1016; 1033; 1050] (clock_at 1000 0)).
    reflexivity.
  - split; [reflexivity|].
    apply (clock_accumulates_scaled_time [1016; 1033; 1050] (clock_at 1000 2)).
    reflexivity.
  - split; [exact H0|]. split; [exact Ho|].
    apply (clock_accumulates_scaled_time [] (clock_at 1000 1)).
    + exact H0.
    + exact Ho.
Defined.
(** ** [init] *)

(** X14.  [Common.init] resolves a canvas and a context or throws.
    With a canvas passed by reference it stores the canvas and the
    context; if the canvas gives no context it throws after having
    stored the canvas and [null].  With an identifier that finds no
    canvas it throws ['invalid argument'] when the object had no
    canvas; when the object already had one, it does not throw: it
    keeps that canvas and takes a context from it. *)
Theorem init_resolves_or_throws
    (querySelector : string -> outcome (option Element))
    (getContext : HTMLCanvasElement -> option GL.context)
    (this : t) :
  (* a canvas passed by reference, with a context *)
  (forall cv context,
     getContext cv = Some context ->
     init querySelector getContext (Reference cv) this
     = (Returns tt, set_gl (Some context) (set_canvas cv this)))
  (* a canvas without WebGL: the canvas is kept, the context is null *)
  /\ (forall cv,
        getContext cv = None ->
        init querySelector getContext (Reference cv) this
        = (Throws (Js.Error "webgl not supported"),
           set_gl None (set_canvas cv this)))
  (* an identifier that finds no canvas, on an object without canvas *)
  /\ (forall id,
        canvas this = None ->
        querySelector (String.append "#" id) = Returns None
        \/ querySelector (String.append "#" id) = Returns (Some OtherElement) ->
        init querySelector getContext (Identifier id) this
        = (Throws (Js.Error "invalid argument"), this))
  (* the same identifier on an object that has a canvas already *)
  /\ (forall id old context,
        canvas this = Some old ->
        querySelector (String.append "#" id) = Returns None
        \/ querySelector (String.append "#" id) = Returns (Some OtherElement) ->
        getContext old = Some context ->
        init querySelector getContext (Identifier id) this
        = (Returns tt, set_gl (Some context) this)).
Proof.
  unfold init. repeat split.
  - intros cv context Hc. cbn. by rewrite Hc.
  - intros cv Hc. cbn. by rewrite Hc.
  - intros id Hn [-> | ->]; by rewrite Hn.
  - intros id old context Ho [-> | ->] Hc; rewrite ?Ho; cbn; by rewrite ?Ho, ?Hc.
Qed.

Lemma init_resolves_or_throws_witness :
  let cv := {| width := 300%Q; height := 150%Q |} in
  let page := fun selector : string =>
                if String.eqb selector "#webgl-canvas"
                then Returns (Some (CanvasElement cv))
                else Returns None in
  let webgl := fun _ : HTMLCanvasElement => Some GL.Context in
  let fresh := constructor 1%Q in
  let started := set_gl (Some GL.Context) (set_canvas cv fresh) in
  init page webgl (Reference cv) fresh = (Returns tt, started)
  /\ init page (fun _ => None) (Reference cv) fresh
     = (Throws (Js.Error "webgl not supported"),
        set_gl None (set_canvas cv fresh))
  /\ init page webgl (Identifier "missing") fresh
     = (Throws (Js.Error "invalid argument"), fresh)
  /\ init page webgl (Identifier "missing") started
     = (Returns tt, set_gl (Some GL.Context) started).
Proof.
  cbv zeta.
  split; [|split; [|split]].
  - apply (init_resolves_or_throws _ _ (constructor 1%Q)). reflexivity.
  - apply (init_resolves_or_throws _ _ (constructor 1%Q)). reflexivity.
  - apply (init_resolves_or_throws _ _ (constructor 1%Q));
      [reflexivity | by left].
  - eapply (proj2 (proj2 (proj2 (init_resolves_or_throws _ _ _))));
      [reflexivity | by left | reflexivity].
Defined.


End CommonFacts.

(* ================================================================== *)
(** * Properties of [Pointer] *)
(* ================================================================== *)

Module PointerFacts.
Import Pointer.
Local Open Scope Q_scope.

(** C6.  On a surface of width [W > 0] and height [H > 0],
    [setCoords] maps the pixel (0, 0) to (-1, 1), the pixel (W, H) to
    (1, -1) and the pixel (W/2, H/2) to (0, 0); a pixel inside the
    surface is mapped inside [-1, 1] x [-1, 1]; and a pixel further
    down the page is mapped lower or level: the vertical axis points
    up. *)
Theorem setCoords_normalizes (W H : Js.number) (this : t) (w : Window.timers) :
  0 < W -> 0 < H ->
  let cv := Some {| Common.width := W; Common.height := H |} in
  let at_ x y := coords (fst (setCoords cv x y this w)) in
  (x (at_ 0 0) == -1 /\ y (at_ 0 0) == 1)
  /\ (x (at_ W H) == 1 /\ y (at_ W H) == -1)
  /\ (x (at_ (W / 2) (H / 2)) == 0 /\ y (at_ (W / 2) (H / 2)) == 0)
  /\ (forall px py,
        0 <= px <= W -> 0 <= py <= H ->
        -1 <= x (at_ px py) <= 1 /\ -1 <= y (at_ px py) <= 1)
  /\ (forall px py py',
        py <= py' -> y (at_ px py') <= y (at_ px py)).
Proof.
  intros HW HH. cbn.
  assert (HW' : ~ W == 0) by lra. assert (HH' : ~ H == 0) by lra.
  split; [split; field; lra|].
  split; [split; field; lra|].
  split; [split; field; lra|].
  split.
  - intros px py [Hx0 Hx1] [Hy0 Hy1].
    assert (0 <= px / W) by (apply Qle_shift_div_l; lra).
    assert (px / W <= 1) by (apply Qle_shift_div_r; lra).
    assert (0 <= py / H) by (apply Qle_shift_div_l; lra).
    assert (py / H <= 1) by (apply Qle_shift_div_r; lra).
    lra.
  - intros px py py' Hle.
    assert (py / H <= py' / H); [|lra].
    unfold Qdiv. apply Qmult_le_compat_r; [done|].
    apply Qlt_le_weak, Qinv_lt_0_compat, HH.
Qed.

Lemma setCoords_normalizes_witness :
  0 < 800 /\ 0 < 600
  /\ x (coords (fst (setCoords
                       (Some {| Common.width := 800; Common.height := 600 |})
                       (800 / 2) (600 / 2) constructor Window.initial))) == 0
  /\ y (coords (fst (setCoords
                       (Some {| Common.width := 800; Common.height := 600 |})
                       (800 / 2) (600 / 2) constructor Window.initial))) == 0.
Proof.
  assert (HW : 0 < 800) by reflexivity.
  assert (HH : 0 < 600) by reflexivity.
  split; [exact HW|]. split; [exact HH|].
  apply (setCoords_normalizes 800 600 constructor Window.initial HW HH).
Defined.

(** C10.  A new [Common] has no canvas, and while [Common.canvas] is
    [null], [setCoords] returns the pointer state and the timers
    exactly as it found them: coordinates, previous coordinates,
    difference, moving flag and timer are unchanged and no timer is
    armed or cleared.  The same holds for the two event handlers,
    which only call [setCoords]. *)
Theorem setCoords_before_init
    (px py : Js.number) (e : PointerEvent) (this : t) (w : Window.timers)
    (devicePixelRatio : Js.number) :
  Common.canvas (Common.constructor devicePixelRatio) = None
  /\ setCoords None px py this w = (this, w)
  /\ onPointerMove None e this w = (this, w)
  /\ onPointerDown None e this w = (this, w).
Proof.
  repeat split.
  - unfold onPointerMove. by destruct (_ && _).
  - unfold onPointerDown. by destruct (_ || _).
Qed.
(** ** Differences and the decay timer *)


(** X13.  Each move restarts the decay timer (timer identifiers being
    positive and never reused): after [setCoords] the pointer is
    moving, a new timer of 100 ms is armed and recorded, and the timer
    recorded before is disarmed, so that its expiry changes nothing;
    the expiry of the new timer clears the moving flag and disarms
    it. *)
Theorem setCoords_restarts_the_decay_timer
    (cv : Common.HTMLCanvasElement) (px py : Js.number) (this : t)
    (w : Window.timers) :
  (forall old, timer this = Some old ->
               old <> 0%nat /\ old <> Window.next_id w) ->
  let moved := fst (setCoords (Some cv) px py this w) in
  let w' := snd (setCoords (Some cv) px py this w) in
  let id := Window.next_id w in
  pointerMoved moved = true
  /\ timer moved = Some id
  /\ Window.pending w' !! id = Some 100%Z
  /\ (forall old, timer this = Some old ->
                  Window.pending w' !! old = None
                  /\ on_timeout old moved w' = (moved, w'))
  /\ pointerMoved (fst (on_timeout id moved w')) = false
  /\ Window.pending (snd (on_timeout id moved w')) !! id = None.
Proof.
  intros Hold. cbn zeta.
  unfold setCoords, clear_pending, Window.setTimeout, Window.clearTimeout.
  destruct (timer this) as [[|old]|] eqn:Ht; cbn [fst snd Window.next_id
    Window.pending pointerMoved timer].
  - by destruct (Hold 0%nat eq_refl).
  - destruct (Hold (S old) eq_refl) as [_ Hne].
    split; [done|]. split; [done|].
    split; [by rewrite lookup_insert_eq|]. split.
    + intros o [= <-].
      assert (Hgone : <[Window.next_id w:=100%Z]>
                        (delete (S old) (Window.pending w)) !! S old = None).
      { rewrite lookup_insert_ne by done. apply lookup_delete_eq. }
      split; [exact Hgone|].
      unfold on_timeout. cbn [Window.pending]. by rewrite Hgone.
    + unfold on_timeout, Window.clearTimeout. cbn [Window.pending].
      rewrite lookup_insert_eq. cbn. split; [done|]. apply lookup_delete_eq.
  - split; [done|]. split; [done|].
    split; [by rewrite lookup_insert_eq|]. split; [done|].
    unfold on_timeout, Window.clearTimeout. cbn [Window.pending].
    rewrite lookup_insert_eq. cbn. split; [done|]. apply lookup_delete_eq.
Qed.

Lemma setCoords_restarts_the_decay_timer_witness :
  let cv := {| Common.width := 800; Common.height := 600 |} in
  let first := setCoords (Some cv) 10 10 constructor Window.initial in
  let second := setCoords (Some cv) 20 20 (fst first) (snd first) in
  timer (fst first) = Some 1%nat
  /\ timer (fst second) = Some 2%nat
  /\ on_timeout 1%nat (fst second) (snd second) = second
  /\ pointerMoved (fst (on_timeout 2%nat (fst second) (snd second))) = false.
Proof.
  cbv zeta.
  assert (Hold : forall old,
            timer (fst (setCoords
                          (Some {| Common.width := 800; Common.height := 600 |})
                          10 10 constructor Window.initial)) = Some old ->
            old <> 0%nat
            /\ old <> Window.next_id
                        (snd (setCoords
                                (Some {| Common.width := 800;
                                         Common.height := 600 |})
                                10 10 constructor Window.initial))).
  { intros old [= <-]. split; discriminate. }
  destruct (setCoords_restarts_the_decay_timer
              {| Common.width := 800; Common.height := 600 |} 20 20
              (fst (setCoords
                      (Some {| Common.width := 800; Common.height := 600 |})
                      10 10 constructor Window.initial))
              (snd (setCoords
                      (Some {| Common.width := 800; Common.height := 600 |})
                      10 10 constructor Window.initial)) Hold)
    as (_ & Ht & _ & Hstale & Hfire & _).
  split; [reflexivity|]. split; [exact Ht|].
  split; [|exact Hfire].
  destruct (Hstale 1%nat eq_refl) as [_ Hs]. rewrite Hs.
  by destruct (setCoords _ 20 20 _ _).
Defined.


End PointerFacts.

(* ================================================================== *)
(** * Properties of [Output] *)
(* ================================================================== *)

Module OutputFacts.
Import GL Spec TraceFacts Output ShaderProgramFacts.

Section Shaders.
Variables base_vert output_frag : string.

Lemma load_constructs common this pl :
  Common.gl common = Some Context ->
  plane this = Some pl ->
  attribute pl = ["position"%string] ->
  stride pl = [3%Q] ->
  load base_vert output_frag common this
  = (let* program :=
       ShaderProgram.constructor (output_options base_vert output_frag) in
     ret {| plane := plane this; shaderProgram := Some program;
            gui := gui this |}).
Proof.
  intros Hgl Hpl Ha Hs. unfold load. rewrite Hgl, Hpl, Ha, Hs. reflexivity.
Qed.

(** Drawing with the placeholder in the buffer list: the frame is
    given up at the first buffer binding. *)
Lemma render_with_placeholder common pointer this cv program pl s :
  Common.gl common = Some Context ->
  Common.canvas common = Some cv ->
  shaderProgram this = Some program ->
  plane this = Some pl ->
  vbo pl = [EmptyArray] ->
  length (ShaderProgram.attribute program) = 1%nat ->
  exists s',
    render common pointer this s = (Returns tt, s')
    /\ log s' = log s ++ [BindFramebuffer None;
                          Viewport (Common.width cv) (Common.height cv);
                          Clear;
                          UseProgram (ShaderProgram.program program)]
    /\ notices s' = notices s ++ [ConsoleError "Error during render:"].
Proof.
  intros Hgl Hcv Hsp Hpl Hvbo Hlen.
  unfold render. rewrite Hgl, Hcv, Hsp, Hpl.
  unfold try_catch, draw, ShaderProgram.use, ShaderProgram.setAttribute.
  rewrite Hvbo, Hlen. cbn.
  eexists. split; [reflexivity|]. cbn.
  by rewrite <- !app_assoc.
Qed.

Lemma constructor_output_options s :
  ShaderProgram.constructor (output_options base_vert output_frag) s
  = ShaderProgram.build (output_options base_vert output_frag)
      (Some ["uTime"; "uResolution"; "uPointer"]%string)
      (Some ["uniform1f"; "uniform2fv"; "uniform2fv"]%string) s.
Proof. reflexivity. Qed.

(** C9.  A vertex buffer that cannot be allocated does not stop
    [init] and is not reported by it.  When the context is present
    and [createBuffer] returns [null]:

    - [createVbo] returns [null], having made the one call
      [createBuffer], and nothing is shown to the user;
    - the geometry is recorded, with the empty array in the place
      of the buffer;
    - [init] then behaves as the construction of the shader program
      from that point on: its next call on the context is
      [createShader(VERTEX_SHADER)], and it returns exactly when
      the platform accepts the program;
    - when it has returned, the next [render] on a canvas binds the
      default framebuffer, sets the viewport, clears and selects
      the program, then gives the frame up: it logs an error to the
      console and draws nothing. *)
Theorem init_survives_failed_vertex_buffer
    (common : Common.t) (this : t) (s : state) :
  Common.gl common = Some Context ->
  can_alloc (drv s) (next_handle s) = false ->
  let s1 := set_next_handle (S (next_handle s)) (record CreateBuffer s) in
  let this1 := with_plane None this in
  let options := output_options base_vert output_frag in
  let started := init base_vert output_frag common this s in
  WebGLUtility.createVbo (fst (Common.createPlaneAttribute 2 2)) s
  = (Returns None, s1)
  /\ notices s1 = notices s
  /\ plane this1
     = Some {| position := fst (Common.createPlaneAttribute 2 2);
               vbo := [EmptyArray];
               attribute := ["position"%string];
               stride := [3%Q] |}
  /\ started
     = (let* program := ShaderProgram.constructor options in
        ret {| plane := plane this1; shaderProgram := Some program;
               gui := gui this |}) s1
  /\ (exists rest,
        log (snd started)
        = log s ++ CreateBuffer :: CreateShader VERTEX_SHADER :: rest)
  /\ is_Returns started = platform_accepts s1 options
  /\ (forall that s2 common' pointer cv,
        started = (Returns that, s2) ->
        Common.gl common' = Some Context ->
        Common.canvas common' = Some cv ->
        plane that = plane this1
        /\ exists program s3,
             shaderProgram that = Some program
             /\ render common' pointer that s2 = (Returns tt, s3)
             /\ log s3
                = log s2
                  ++ [BindFramebuffer None;
                      Viewport (Common.width cv) (Common.height cv);
                      Clear;
                      UseProgram (ShaderProgram.program program)]
             /\ notices s3
                = notices s2 ++ [ConsoleError "Error during render:"]).
Proof.
  intros Hgl Hfail s1 this1 options started.
  assert (Hvbo : WebGLUtility.createVbo
                   (fst (Common.createPlaneAttribute 2 2)) s
                 = (Returns None, s1)).
  { unfold WebGLUtility.createVbo, gl.createBuffer, gl.alloc, bind.
    by rewrite Hfail. }
  assert (Hinit : started
                  = (let* program := ShaderProgram.constructor options in
                     ret {| plane := plane this1;
                            shaderProgram := Some program;
                            gui := gui this |}) s1).
  { unfold started, this1, init. rewrite Hgl. unfold bind at 1.
    rewrite Hvbo.
    by rewrite (load_constructs common (with_plane None this) _
                  Hgl eq_refl eq_refl eq_refl). }
  split; [exact Hvbo|]. split; [done|]. split; [done|].
  split; [exact Hinit|].
  split; [|split].
  - rewrite Hinit. unfold bind.
    rewrite constructor_output_options.
    destruct (build_starts_with_createShader options
                (Some ["uTime"; "uResolution"; "uPointer"]%string)
                (Some ["uniform1f"; "uniform2fv"; "uniform2fv"]%string) s1)
      as [rest Hrest].
    exists rest.
    fold options.
    destruct (ShaderProgram.build options _ _ s1) as [[p|e] s2];
      cbn in Hrest |- *; rewrite Hrest; cbn; by rewrite <- app_assoc.
  - rewrite Hinit. unfold bind.
    rewrite constructor_output_options. fold options.
    rewrite <- (build_outcome options
                 (Some ["uTime"; "uResolution"; "uPointer"]%string)
                 (Some ["uniform1f"; "uniform2fv"; "uniform2fv"]%string) s1).
    by destruct (ShaderProgram.build options _ _ s1) as [[p|e] s2].
  - intros that s2 common' pointer cv Hrun Hgl' Hcv.
    rewrite Hinit in Hrun. unfold bind in Hrun.
    destruct (ShaderProgram.constructor options s1) as [[p|e] s2'] eqn:Hc;
      [|done].
    unfold ret in Hrun. injection Hrun as <- <-.
    split; [done|].
    destruct (constructor_fields _ _ _ _ Hc) as (Ha & _).
    destruct (render_with_placeholder common' pointer
                {| plane := plane this1; shaderProgram := Some p;
                   gui := gui this |} cv p
                {| position := fst (Common.createPlaneAttribute 2 2);
                   vbo := [EmptyArray];
                   attribute := ["position"%string];
                   stride := [3%Q] |} s2' Hgl' Hcv eq_refl eq_refl eq_refl)
      as (s3 & Hr & Hl & Hn).
    { by rewrite Ha. }
    by exists p, s3.
Qed.
End Shaders.

Lemma init_survives_failed_vertex_buffer_witness :
  let s := new_context flaky in
  let common := ready {| Common.width := 800%Q; Common.height := 600%Q |} in
  let started := init "void main() {}" "void main() {}" common
                      (constructor {| Gui.fps := None |}) s in
  Common.gl common = Some Context
  /\ can_alloc (drv s) (next_handle s) = false
  /\ is_Returns started = true
  /\ exists rest,
       log (snd started)
       = log s ++ CreateBuffer :: CreateShader VERTEX_SHADER :: rest.
Proof.
  cbv zeta.
  assert (Hgl : Common.gl (ready {| Common.width := 800%Q;
                                    Common.height := 600%Q |})
                = Some Context) by reflexivity.
  assert (Hf : can_alloc (drv (new_context flaky))
                         (next_handle (new_context flaky)) = false)
    by reflexivity.
  split; [exact Hgl|]. split; [exact Hf|].
  destruct (init_survives_failed_vertex_buffer
              "void main() {}" "void main() {}"
              (ready {| Common.width := 800%Q; Common.height := 600%Q |})
              (constructor {| Gui.fps := None |})
              (new_context flaky) Hgl Hf)
    as (_ & _ & _ & _ & Hlog & Hok & _).
  split; [|exact Hlog].
  rewrite Hok. reflexivity.
Defined.
End OutputFacts.

(* ================================================================== *)
(** * Properties of [WebGLApp] *)
(* ================================================================== *)

Module WebGLAppFacts.
Import GL Spec TraceFacts WebGLApp.

Lemma render_returns common pointer this :
  returns (Output.render common pointer this).
Proof.
  intros s. unfold Output.render.
  destruct (Common.gl common), (Common.canvas common),
           (Output.shaderProgram this), (Output.plane this);
    try by eexists _, _.
  unfold try_catch.
  destruct (Output.draw _ _ _ _ _ s) as [[[]|e] s1]; by eexists _, _.
Qed.

Lemma frame_work_returns now p s :
  exists s',
    frame_work now p s
    = (Returns (set_common
                  (Gui.update (Output.gui (output (app p)))
                              (Common.update now (common p))) p), s').
Proof.
  unfold frame_work, Output.update, bind.
  destruct (render_returns (Common.update now (common p)) (pointer p)
              (output (app p)) s) as ([] & s' & ->).
  by exists s'.
Qed.

Lemma animation_frames_run_idle nows p s :
  animation_frames p = 0%nat ->
  animation_frames_run nows p s = (Returns p, s).
Proof.
  intros Hq. induction nows as [|now nows IH]; [done|].
  cbn. unfold bind, animation_frame. by rewrite Hq.
Qed.

(** C8.  The loop stops one frame late.  Every [render] returns; it
    is the frame work run after the scheduling decision, and the
    decision depends on the running flag as [render] finds it: one
    more callback is queued when the flag is set, none otherwise.

    So when [render] starts with the flag set and nothing queued, and
    the frame work of that call clears the flag, one callback is
    queued all the same.  At the next display refresh it runs its
    whole frame work (the clock is updated, the output stage is
    updated) and queues nothing, and from then on no refresh runs
    anything: the page and the context stay as they are. *)
Theorem render_stops_one_frame_late
    (now1 now2 : Js.number) (p : page) (s : state) :
  exists p1 s1,
    render now1 p s = (Returns p1, s1)
    /\ render now1 p s
       = frame_work now1
           (if Common.running (common p) then requestAnimationFrame p else p)
           s
    /\ animation_frames p1
       = (if Common.running (common p)
          then S (animation_frames p) else animation_frames p)
    /\ (Common.running (common p) = true ->
        animation_frames p = 0%nat ->
        Common.running (common p1) = false ->
        exists p2 s2,
          animation_frame now2 p1 s1 = (Returns p2, s2)
          /\ animation_frame now2 p1 s1
             = frame_work now2 (set_animation_frames 0 p1) s1
          /\ common p2
             = Gui.update (Output.gui (output (app p1)))
                          (Common.update now2 (common p1))
          /\ animation_frames p2 = 0%nat
          /\ forall nows, animation_frames_run nows p2 s2 = (Returns p2, s2)).
Proof.
  unfold render.
  destruct (frame_work_returns now1
              (if Common.running (common p)
               then requestAnimationFrame p else p) s) as [s1 Hw].
  eexists _, s1. split; [exact Hw|]. split; [done|]. split.
  - by destruct (Common.running (common p)).
  - intros Hrun Hq Hstop. rewrite Hrun in *. cbn in Hstop |- *.
    unfold animation_frame. cbn. rewrite Hq. unfold render. cbn.
    rewrite Hstop.
    match goal with
    | |- context [frame_work now2 ?q s1] =>
        destruct (frame_work_returns now2 q s1) as [s2 Hw2]
    end.
    eexists _, s2. split; [exact Hw2|]. split; [done|]. split; [done|].
    split; [done|].
    intros nows. by apply animation_frames_run_idle.
Qed.

Lemma render_stops_one_frame_late_witness :
  let p := starting_page {| Gui.fps := Some stopping_fps |} in
  let s := new_context obliging in
  Common.running (common p) = true
  /\ animation_frames p = 0%nat
  /\ exists p1 s1,
       render 1016%Q p s = (Returns p1, s1)
       /\ animation_frames p1 = 1%nat
       /\ Common.running (common p1) = false
       /\ exists p2 s2,
            animation_frame 1033%Q p1 s1 = (Returns p2, s2)
            /\ animation_frames p2 = 0%nat
            /\ forall nows,
                 animation_frames_run nows p2 s2 = (Returns p2, s2).
Proof.
  cbv zeta. split; [reflexivity|]. split; [reflexivity|].
  destruct (render_stops_one_frame_late 1016%Q 1033%Q
              (starting_page {| Gui.fps := Some stopping_fps |})
              (new_context obliging))
    as (p1 & s1 & Hr & _ & Hq & Hnext).
  exists p1, s1. split; [exact Hr|]. split; [exact Hq|].
  assert (Hstop : Common.running (common p1) = false).
  { vm_compute in Hr. by injection Hr as <- _. }
  split; [exact Hstop|].
  destruct (Hnext eq_refl eq_refl Hstop) as (p2 & s2 & Ha & _ & _ & Hz & Hn).
  by exists p2, s2.
Defined.
(** ** The loop left alone, and [setup] *)



(** X16.  [WebGLApp.setup] always returns with the running flag set
    and queues nothing.  The canvas, if there is one, takes the size of
    the window.  The clock is seeded with the current reading only when
    there is a context (three calls are then made on it); without one
    the previous reading and the context are untouched. *)
Theorem setup_starts_the_loop
    (now window_innerWidth window_innerHeight : Js.number)
    (p : page) (s : state) :
  exists p' s',
    setup now window_innerWidth window_innerHeight p s = (Returns p', s')
    /\ Common.running (common p') = true
    /\ animation_frames p' = animation_frames p
    /\ Common.time (common p') = Common.time (common p)
    /\ Common.canvas (common p')
       = (match Common.canvas (common p) with
          | Some _ => Some {| Common.width := window_innerWidth;
                              Common.height := window_innerHeight |}
          | None => None
          end)
    /\ match Common.gl (common p) with
       | Some _ =>
           Common.previousTime (common p') = now
           /\ log s' = log s ++ [ClearColor; ClearDepth; Enable]
       | None =>
           Common.previousTime (common p') = Common.previousTime (common p)
           /\ s' = s
       end.
Proof.
  unfold setup, Common.setup, bind, resize, Common.resize.
  destruct (Common.gl (common p)) eqn:Hgl.
  - unfold gl.clearColor, gl.clearDepth, gl.enable, modify, ret.
    cbv beta iota. cbn [common set_common Common.canvas].
    eexists _, _. split; [reflexivity|].
    destruct (Common.canvas (common p)); cbn; rewrite <- ?app_assoc;
      by repeat split.
  - unfold ret. cbv beta iota. cbn [common set_common].
    eexists _, _. split; [reflexivity|].
    destruct (Common.canvas (common p)) eqn:Hcv; cbn; rewrite ?Hcv;
      by repeat split.
Qed.




End WebGLAppFacts.

(* ================================================================== *)
(** * Frames of the output stage *)
(* ================================================================== *)

Module FrameFacts.
Import GL Spec TraceFacts Output WebGLUtilityFacts ShaderProgramFacts.
Import OutputFacts WebGLAppFacts.

Section Shaders.
Variables base_vert output_frag : string.

(** What [init] leaves when it returns with a context. *)
Lemma init_returns_shape common this s that s2 :
  Common.gl common = Some Context ->
  init base_vert output_frag common this s = (Returns that, s2) ->
  let buffer := if can_alloc (drv s) (next_handle s)
                then Some (next_handle s) else None in
  exists program s1,
    that = {| plane := plane (with_plane buffer this);
              shaderProgram := Some program; gui := gui this |}
    /\ ShaderProgram.constructor (output_options base_vert output_frag) s1
       = (Returns program, s2).
Proof.
  intros Hgl. unfold init. rewrite Hgl. unfold bind at 1.
  unfold WebGLUtility.createVbo, gl.createBuffer, gl.alloc, gl.bindBuffer,
    gl.bufferData, bind, modify, ret.
  destruct (can_alloc (drv s) (next_handle s)); cbv beta iota zeta;
    rewrite (load_constructs _ _ common (with_plane _ this) _
               Hgl eq_refl eq_refl eq_refl);
    unfold bind;
    match goal with
    | |- context [ShaderProgram.constructor ?o ?st] =>
        destruct (ShaderProgram.constructor o st) as [[p|e] s'] eqn:Hc
    end; try done;
    unfold ret; intros [= <- <-]; by eexists _, _.
Qed.

(** X10.  One frame of an output stage that was initialised (vertex
    buffer granted, program constructed) on a context that has
    [uniform1f] and [uniform2fv]: [render] returns, shows nothing,
    and makes exactly the calls of [frame_trace]: it binds the
    default framebuffer, sets the viewport to the canvas, clears,
    selects the program, binds the quad's buffer to its one
    attribute with stride 3, sends time, resolution and pointer, and
    draws once, 12 / 3 = 4 vertices. *)
Theorem render_draws_one_quad
    (common common' : Common.t) (pointer : Pointer.t) (this that : t)
    (cv : Common.HTMLCanvasElement) (s s2 : state) :
  Common.gl common = Some Context ->
  can_alloc (drv s) (next_handle s) = true ->
  init base_vert output_frag common this s = (Returns that, s2) ->
  Common.gl common' = Some Context ->
  Common.canvas common' = Some cv ->
  has_method (drv s2) "uniform1f" = true ->
  has_method (drv s2) "uniform2fv" = true ->
  exists program location uTime uResolution uPointer s3,
    shaderProgram that = Some program
    /\ render common' pointer that s2 = (Returns tt, s3)
    /\ log s3
       = log s2
         ++ frame_trace common' pointer cv
              (ShaderProgram.program program) (next_handle s) location
              uTime uResolution uPointer
    /\ notices s3 = notices s2
    /\ (12 / 3 == 4)%Q.
Proof.
  intros Hgl Hb Hinit Hgl' Hcv H1f H2fv.
  destruct (init_returns_shape common this s that s2 Hgl Hinit)
    as (program & s1 & -> & Hc).
  rewrite Hb.
  destruct (constructor_fields _ _ _ _ Hc)
    as (Ha & Hs & Hu & Ht & _ & Hal & Hul).
  cbn in Ha, Hs, Hu, Ht. rewrite Hu in Hul.
  destruct Hul as (tags & locations & Htags & Hlocs & _ & Hll).
  rewrite Ha in Hal.
  destruct (ShaderProgram.attributeLocation program)
    as [|location [|]] eqn:Hale; try done.
  destruct locations as [|uTime [|uResolution [|uPointer [|]]]]; try done.
  exists program, location, uTime, uResolution, uPointer.
  unfold render. rewrite Hgl', Hcv. cbn [shaderProgram plane with_plane].
  unfold try_catch, draw, ShaderProgram.use, ShaderProgram.setAttribute,
    ShaderProgram.setUniform.
  cbn [vbo position or_empty_array length map].
  rewrite Ha, Hu. cbn [length Nat.eqb negb].
  unfold bind, modify, ret, gl.bindFramebuffer, gl.viewport, gl.clear,
    gl.useProgram, gl.drawArrays.
  cbv beta iota.
  cbn [for_each].
  unfold bind, modify, ret, gl.bindBuffer_value, gl.bindBuffer,
    gl.enableVertexAttribArray, gl.vertexAttribPointer,
    ShaderProgram.dispatch, ShaderProgram.type_at,
    ShaderProgram.location_at, gl.invoke.
  rewrite Ht, Hlocs, Hale, Hs.
  cbv beta iota.
  cbn [lookup list_lookup default mjoin option_join id].
  repeat (unfold bind, modify, ret; cbv beta iota).
  change (Js.includes "Matrix" "uniform1f") with false.
  change (Js.includes "Matrix" "uniform2fv") with false.
  cbv iota. state_simpl.
  repeat (progress (rewrite ?H1f, ?H2fv; cbv beta iota; state_simpl)).
  eexists. split; [reflexivity|]. split; [reflexivity|].
  state_simpl. rewrite <- !app_assoc. by repeat split.
Qed.
End Shaders.

Lemma render_draws_one_quad_witness :
  let cv := {| Common.width := 800%Q; Common.height := 600%Q |} in
  exists that s2 program location uTime uResolution uPointer s3,
    init "void main() {}" "void main() {}" (ready cv)
         (constructor {| Gui.fps := None |}) (new_context obliging)
    = (Returns that, s2)
    /\ shaderProgram that = Some program
    /\ render (ready cv) Pointer.constructor that s2 = (Returns tt, s3)
    /\ log s3
       = log s2
         ++ frame_trace (ready cv) Pointer.constructor cv
              (ShaderProgram.program program) 1%nat location
              uTime uResolution uPointer
    /\ notices s3 = notices s2.
Proof.
  cbv zeta.
  destruct (init "void main() {}" "void main() {}"
              (ready {| Common.width := 800%Q; Common.height := 600%Q |})
              (constructor {| Gui.fps := None |}) (new_context obliging))
    as [[that|e] s2] eqn:Hinit; [|by vm_compute in Hinit].
  assert (Hd : drv s2 = obliging).
  { vm_compute in Hinit. by injection Hinit as _ <-. }
  destruct (render_draws_one_quad "void main() {}" "void main() {}"
              (ready {| Common.width := 800%Q; Common.height := 600%Q |})
              (ready {| Common.width := 800%Q; Common.height := 600%Q |})
              Pointer.constructor (constructor {| Gui.fps := None |}) that
              {| Common.width := 800%Q; Common.height := 600%Q |}
              (new_context obliging) s2 eq_refl eq_refl Hinit eq_refl eq_refl)
    as (program & location & uTime & uResolution & uPointer & s3
        & Hp & Hr & Hl & Hn & _).
  { by rewrite Hd. }
  { by rewrite Hd. }
  by exists that, s2, program, location, uTime, uResolution, uPointer, s3.
Defined.

(** X11.  A frame of the output stage never throws: [render] and
    [update] return in every state.  When the context, the canvas, the
    program or the geometry is missing, [render] logs one error to the
    console and makes no call on the context. *)
Theorem output_frame_never_throws
    (common : Common.t) (pointer : Pointer.t) (this : t) (s : state) :
  (exists s', render common pointer this s = (Returns tt, s'))
  /\ (exists s',
        update common pointer this s
        = (Returns (Gui.update (gui this) common), s'))
  /\ (can_draw common this = false ->
      render common pointer this s
      = (Returns tt,
         notify (ConsoleError
                   "WebGL context, canvas, shader program or plane geometry is missing.")
                s)).
Proof.
  split; [|split].
  - destruct (render_returns common pointer this s) as ([] & s' & Hr).
    by exists s'.
  - unfold update, bind.
    destruct (render_returns common pointer this s) as ([] & s' & ->).
    by exists s'.
  - unfold can_draw, render.
    by destruct (Common.gl common), (Common.canvas common),
                (shaderProgram this), (plane this).
Qed.

Lemma output_frame_never_throws_witness :
  can_draw (Common.constructor 1%Q) (constructor {| Gui.fps := None |}) = false
  /\ render (Common.constructor 1%Q) Pointer.constructor
        (constructor {| Gui.fps := None |}) (new_context obliging)
     = (Returns tt,
        notify (ConsoleError
                  "WebGL context, canvas, shader program or plane geometry is missing.")
               (new_context obliging)).
Proof.
  split; [reflexivity|].
  apply (output_frame_never_throws (Common.constructor 1%Q)
           Pointer.constructor (constructor {| Gui.fps := None |})
           (new_context obliging)).
  reflexivity.
Defined.

End FrameFacts.
